(** * Smart-T-shirt backend: the simulated ECG generator of [backend/app.py]

    The Flask module keeps three module-level globals ([generation_mode],
    [current_time_ms], [phase]) and serves three routes over them:
    [GET /status], [POST /set_mode/<mode>] and [GET /data].  This file embeds
    the module as pure functions over an explicit [world] (the globals, the
    state of Python's [random] module and the lines printed so far) and
    proves the properties of the specification about it. *)

From Stdlib Require Import ZArith String Ascii List Bool Lia Floats.
From Stdlib Require Import DecimalString.
Import ListNotations.

Set Warnings "-inexact-float".

Local Open Scope string_scope.
Local Open Scope Z_scope.

(** ** The parts of the Python runtime the module relies on *)

Module Py.

(** Values handed to [flask.jsonify]: a [dict] keeps its insertion order,
    so an object is an association list. *)
#[local] Unset Elimination Schemes.
Inductive json : Type :=
| JNum (x : float)
| JStr (s : string)
| JArr (items : list json)
| JObj (fields : list (string * json)).
#[local] Set Elimination Schemes.

(** What a view function returns: the body and the HTTP status code. *)
Record response : Type := Response { body : json; status : Z }.

(** [x in xs] on a list of strings. *)
Definition contains (x : string) (xs : list string) : bool :=
  existsb (String.eqb x) xs.

(** [sep.join(xs)]. *)
Definition join (sep : string) (xs : list string) : string :=
  String.concat sep xs.

(** Conversion of an [int] operand of a float operation: the nearest
    double, ties to even (an [int] beyond the double range raises
    OverflowError in Python; here it becomes an infinity). *)
Definition float_of_int (n : Z) : float :=
  SF2Prim (binary_normalize prec emax n 0 false).

(** [n / d] rounded to the nearest integer, ties to the even one
    ([d] positive). *)
Definition div_half_even (n d : Z) : Z :=
  let q := n / d in
  match (2 * (n mod d)) ?= d with
  | Lt => q
  | Gt => q + 1
  | Eq => if Z.even q then q else q + 1
  end.

(** The double nearest to [(-1)^s * q / 10^ndigits]: what [strtod] makes
    of the decimal string that [round] builds. *)
Definition decimal (s : bool) (q : positive) (ndigits : nat) : float :=
  SF2Prim (SFdiv prec emax
             (S754_finite s q 0)
             (S754_finite false (Z.to_pos (10 ^ Z.of_nat ndigits)) 0)).

(** [round(number, ndigits)] on a float, for [0 <= ndigits] (CPython's
    [float.__round__] with its correctly rounded [double_round]): the
    exact binary value of [number] is rounded half-to-even to [ndigits]
    decimal places and the result is the double nearest to that decimal.
    Zeros, infinities and NaN round to themselves, and so does a double
    that is an integer already, or every double when
    [ndigits > NDIGITS_MAX = 323]. *)
Definition round (number : float) (ndigits : nat) : float :=
  match Prim2SF number with
  | S754_finite s m e =>
      if (0 <=? e) || (323 <? Z.of_nat ndigits) then number
      else
        match div_half_even (Z.pos m * 10 ^ Z.of_nat ndigits) (2 ^ (- e)) with
        | Z.pos q => decimal s q ndigits
        | _ => if s then neg_zero else zero
        end
  | _ => number
  end.

End Py.

Import Py.

(** The imports of [app.py] whose results the module only passes on.  They
    are taken as an interface: [math.sin] is the platform's libm,
    [random.random] steps the hidden Mersenne Twister, and
    [datetime.fromtimestamp(x, tz=timezone.utc).isoformat()] is the standard
    library's rendering of [x] seconds since the epoch. *)
Class Runtime : Type := {
  math_sin : float -> float;
  rng : Type;
  random_random : rng -> float * rng;
  utc_isoformat : float -> string
}.

(** [random.uniform(a, b)] is [a + (b - a) * self.random()]. *)
Definition random_uniform `{Runtime} (a b : Z) (g : rng) : float * rng :=
  let '(u, g') := random_random g in
  ((float_of_int a + float_of_int (b - a) * u)%float, g').

(** One reading of the wall clock, as a request sees it:
    [int(time.time() * 1000)] and [datetime.now(timezone.utc).isoformat()]. *)
Record clock : Type := Clock { time_ms : Z; utcnow_isoformat : string }.

(** ** State Management *)

(** The module globals, together with the generator state of [random] and
    the lines written by [print]. *)
Record world `{Runtime} : Type := World {
  generation_mode : string;
  current_time_ms : Z;
  phase : float;
  random_state : rng;
  stdout : list string
}.

(** The module body, run once at import. *)
Definition init `{Runtime} (c : clock) (g : rng) : world :=
  {| generation_mode := "stopped";
     current_time_ms := time_ms c;
     phase := 0%float;
     random_state := g;
     stdout := [] |}.

(** ** Data Generation Logic *)

Definition generate_ecg_point `{Runtime} (c : clock) (w : world) : json * world :=
  let timestamp := utcnow_isoformat c in
  let time_increment_ms := 100 in
  let '(value, phase', g') :=
    if (generation_mode w =? "normal")%string then
      ((math_sin (phase w) * 50 + 60)%float, (phase w + 0.5)%float, random_state w)
    else if (generation_mode w =? "abnormal")%string then
      let '(u, g1) := random_random (random_state w) in
      if (u <? 0.1)%float then
        let '(v, g2) := random_uniform 130 180 g1 in
        (v, phase w, g2)
      else
        ((math_sin (phase w) * 40 + 65)%float, (phase w + 0.45)%float, g1)
    else
      (0%float, phase w, random_state w) in
  let current_time_ms' := current_time_ms w + time_increment_ms in
  let simulated_timestamp :=
    utc_isoformat (float_of_int current_time_ms' / 1000)%float in
  (JObj [("time", JStr simulated_timestamp); ("value", JNum (round value 2))],
   {| generation_mode := generation_mode w;
      current_time_ms := current_time_ms';
      phase := phase';
      random_state := g';
      stdout := stdout w |}).

(** ** API Endpoints *)

Definition get_status `{Runtime} (w : world) : response :=
  Response (JObj [("mode", JStr (generation_mode w))]) 200.

Definition valid_modes : list string := ["normal"; "abnormal"; "stopped"].

Definition set_mode `{Runtime} (c : clock) (mode : string) (w : world)
  : response * world :=
  if contains mode valid_modes then
    let '(t, p) :=
      if (generation_mode w =? "stopped")%string && negb (mode =? "stopped")%string
      then (time_ms c, 0%float)
      else (current_time_ms w, phase w) in
    let w' := {| generation_mode := mode;
                 current_time_ms := t;
                 phase := p;
                 random_state := random_state w;
                 stdout := List.app (stdout w) ["Generation mode set to: " ++ mode] |} in
    (Response (JObj [("status", JStr "success");
                     ("new_mode", JStr (generation_mode w'))]) 200, w')
  else
    (Response (JObj [("status", JStr "error");
                     ("message", JStr ("Invalid mode. Use one of: "
                                       ++ join ", " valid_modes))]) 400, w).

Definition get_data `{Runtime} (c : clock) (w : world) : response * world :=
  if (generation_mode w =? "stopped")%string then
    (Response (JArr []) 200, w)
  else
    let '(data_point, w') := generate_ecg_point c w in
    (Response (JArr [data_point]) 200, w').

(** ** A reference runtime

    An executable instance of [Runtime], on which the model can be run: a
    polynomial for the sine that is exact at [0], a generator that replays a
    prepared list of draws (the deterministic source of a test), and the
    ISO-8601 rendering of a UTC instant by [datetime.isoformat]. *)

Module Reference.

Definition sin (x : float) : float :=
  let x2 := (x * x)%float in
  (x * (1 - x2 / 6 * (1 - x2 / 20 * (1 - x2 / 42))))%float.

Definition replay (draws : list float) : float * list float :=
  match draws with
  | [] => (0%float, [])
  | u :: rest => (u, rest)
  end.

(** [n] written with exactly [width] decimal digits, as [%0<width>d]. *)
Fixpoint zero_padded (width : nat) (n : Z) : string :=
  match width with
  | O => ""
  | S k => zero_padded k (n / 10)
           ++ String (ascii_of_nat (48 + Z.to_nat (n mod 10))) ""
  end.

(** Year, month and day of the day number [z] counted from 1970-01-01
    (proleptic Gregorian calendar). *)
Definition civil_from_days (z : Z) : Z * Z * Z :=
  let z := z + 719468 in
  let era := z / 146097 in
  let doe := z - era * 146097 in
  let yoe := (doe - doe / 1460 + doe / 36524 - doe / 146096) / 365 in
  let doy := doe - (365 * yoe + yoe / 4 - yoe / 100) in
  let mp := (5 * doy + 2) / 153 in
  let d := doy - (153 * mp + 2) / 5 + 1 in
  let m := if mp <? 10 then mp + 3 else mp - 9 in
  (yoe + era * 400 + (if m <=? 2 then 1 else 0), m, d).

(** Whole microseconds of [x] seconds, ties to even. *)
Definition microseconds (x : float) : Z :=
  match Prim2SF x with
  | S754_finite s m e =>
      let us := if 0 <=? e then Z.pos m * 2 ^ e * 1000000
                else div_half_even (Z.pos m * 1000000) (2 ^ (- e)) in
      if s then - us else us
  | _ => 0
  end.

Definition isoformat (x : float) : string :=
  let total := microseconds x in
  let secs := total / 1000000 in
  let us := total mod 1000000 in
  let '(y, m, d) := civil_from_days (secs / 86400) in
  let sod := secs mod 86400 in
  zero_padded 4 y ++ "-" ++ zero_padded 2 m ++ "-" ++ zero_padded 2 d
    ++ "T" ++ zero_padded 2 (sod / 3600)
    ++ ":" ++ zero_padded 2 (sod / 60 mod 60)
    ++ ":" ++ zero_padded 2 (sod mod 60)
    ++ (if us =? 0 then "" else "." ++ zero_padded 6 us)
    ++ "+00:00".

Definition runtime : Runtime :=
  {| math_sin := sin;
     rng := list float;
     random_random := replay;
     utc_isoformat := isoformat |}.

End Reference.

(** ** Requests and runs *)

Inductive request : Type :=
| GET_status
| POST_set_mode (mode : string)
| GET_data.

(** The route table: one request served at one reading of the clock. *)
Definition serve `{Runtime} (c : clock) (q : request) (w : world)
  : response * world :=
  match q with
  | GET_status => (get_status w, w)
  | POST_set_mode mode => set_mode c mode w
  | GET_data => get_data c w
  end.

(** The worlds a sequence of requests goes through, one per request. *)
Fixpoint run `{Runtime} (reqs : list (clock * request)) (w : world)
  : list world :=
  match reqs with
  | [] => []
  | (c, q) :: rest => let w' := snd (serve c q w) in w' :: run rest w'
  end.

(** The simulated clock along a run, starting value included. *)
Definition timestamps `{Runtime} (reqs : list (clock * request)) (w : world)
  : list Z :=
  current_time_ms w :: map current_time_ms (run reqs w).

(** The wall clock along a run, read at each request. *)
Definition wall_clock (c0 : clock) (reqs : list (clock * request)) : list Z :=
  time_ms c0 :: map (fun cq => time_ms (fst cq)) reqs.

Fixpoint nondecreasing (l : list Z) : bool :=
  match l with
  | a :: (b :: _) as rest => (a <=? b) && nondecreasing rest
  | _ => true
  end.

(** A response of [/data] that carries a point. *)
Definition emits_point (r : response) : bool :=
  match body r with
  | JArr [_] => true
  | _ => false
  end.

(** The request is a [set_mode] that takes the [if] of lines 58-61: it
    starts generation from the stopped state. *)
Definition restarts `{Runtime} (q : request) (w : world) : bool :=
  match q with
  | POST_set_mode mode =>
      contains mode valid_modes
      && (generation_mode w =? "stopped")%string
      && negb (mode =? "stopped")%string
  | _ => false
  end.

(** Every restart of the run reads a wall clock that is not behind the
    simulated clock of that moment. *)
Fixpoint restarts_not_behind `{Runtime} (reqs : list (clock * request))
  (w : world) : bool :=
  match reqs with
  | [] => true
  | (c, q) :: rest =>
      (if restarts q w then current_time_ms w <=? time_ms c else true)
      && restarts_not_behind rest (snd (serve c q w))
  end.

(** Every point of the run moved the simulated clock by exactly 100. *)
Fixpoint points_advance_100 `{Runtime} (reqs : list (clock * request))
  (w : world) : bool :=
  match reqs with
  | [] => true
  | (c, q) :: rest =>
      let '(r, w') := serve c q w in
      (if emits_point r
       then current_time_ms w' =? current_time_ms w + 100
       else true)
      && points_advance_100 rest w'
  end.

(** A float is rounded to [ndigits] decimal places when it is the double
    nearest to a decimal with [ndigits] places, a zero, or a double that
    has no fractional part to round (infinities, NaN, and the integers from
    [2^52] on). *)
Inductive rounded_to (ndigits : nat) (v : float) : Prop :=
| rounded_decimal (s : bool) (q : positive) :
    v = decimal s q ndigits -> rounded_to ndigits v
| rounded_zero :
    v = zero \/ v = neg_zero -> rounded_to ndigits v
| rounded_integral (s : bool) (m : positive) (e : Z) :
    Prim2SF v = S754_finite s m e -> 0 <= e -> rounded_to ndigits v
| rounded_special :
    Prim2SF v = S754_nan \/ (exists s, Prim2SF v = S754_infinity s) ->
    rounded_to ndigits v.

(** The point that [generate_ecg_point] builds from the advanced clock and
    the raw value. *)
Definition point `{Runtime} (t : Z) (value : float) : json :=
  JObj [("time", JStr (utc_isoformat (float_of_int t / 1000)%float));
        ("value", JNum (round value 2))].

(** A client that polls faster than the simulated 10 points per second and
    then stops and restarts: the wall clock moves 10 ms per request. *)
Definition boot : clock := Clock 1700000000000 "2023-11-14T22:13:20+00:00".

Definition fast_poll_then_restart : list (clock * request) :=
  [ (Clock 1700000001000 "2023-11-14T22:13:21+00:00", POST_set_mode "normal");
    (Clock 1700000001010 "2023-11-14T22:13:21.010000+00:00", GET_data);
    (Clock 1700000001020 "2023-11-14T22:13:21.020000+00:00", GET_data);
    (Clock 1700000001030 "2023-11-14T22:13:21.030000+00:00", POST_set_mode "stopped");
    (Clock 1700000001040 "2023-11-14T22:13:21.040000+00:00", POST_set_mode "normal") ].

(** A client that polls at the simulated rate, 100 ms per request. *)
Definition steady_poll_then_restart : list (clock * request) :=
  [ (Clock 1700000001000 "2023-11-14T22:13:21+00:00", POST_set_mode "normal");
    (Clock 1700000001100 "2023-11-14T22:13:21.100000+00:00", GET_data);
    (Clock 1700000001200 "2023-11-14T22:13:21.200000+00:00", GET_data);
    (Clock 1700000001300 "2023-11-14T22:13:21.300000+00:00", POST_set_mode "stopped");
    (Clock 1700000001400 "2023-11-14T22:13:21.400000+00:00", POST_set_mode "normal") ].

(** The world right after import on the reference runtime, with the draws
    the generator will replay. *)
Definition booted (draws : list float) : @world Reference.runtime :=
  @init Reference.runtime boot draws.

(** A world in the middle of a session on the reference runtime. *)
Definition running (mode : string) (draws : list float)
  : @world Reference.runtime :=
  @World Reference.runtime mode 1700000005000 7.5%float draws
    ["Generation mode set to: " ++ mode].

Definition later : clock :=
  Clock 1700000009000 "2023-11-14T22:13:29+00:00".

(** ** Sessions

    What a client sees of a sequence of requests. *)

(** The responses of a run, one per request. *)
Fixpoint replies `{Runtime} (reqs : list (clock * request)) (w : world)
  : list response :=
  match reqs with
  | [] => []
  | (c, q) :: rest => fst (serve c q w) :: replies rest (snd (serve c q w))
  end.

(** The world a run ends in. *)
Fixpoint final `{Runtime} (reqs : list (clock * request)) (w : world) : world :=
  match reqs with
  | [] => w
  | (c, q) :: rest => final rest (snd (serve c q w))
  end.

(** [/data] polled once at each of the given readings of the clock. *)
Definition polls (cs : list clock) : list (clock * request) :=
  map (fun c => (c, GET_data)) cs.

(** The line a request makes [set_mode] print: one for a request that
    names a valid mode, none otherwise. *)
Definition mode_line (q : request) : list string :=
  match q with
  | POST_set_mode mode =>
      if contains mode valid_modes
      then ["Generation mode set to: " ++ mode] else []
  | _ => []
  end.

(** The lines printed for a sequence of requests. *)
Definition mode_log (reqs : list (clock * request)) : list string :=
  flat_map (fun cq => mode_line (snd cq)) reqs.

(** The module globals and the generator state of a world: all of it but
    the printed lines. *)
Definition globals `{Runtime} (w : world) : string * Z * float * rng :=
  (generation_mode w, current_time_ms w, phase w, random_state w).

(** ** The command-line client of [backend/control_backend.py]

    [set_backend_mode] checks the mode, posts one request to the deployed
    backend and reports on it.  Its result is what it printed, the URLs it
    posted to, and the status it exits with ([None] when it returns). *)

(** Values that [response.json()] decodes. *)
#[local] Unset Elimination Schemes.
Inductive pyvalue : Type :=
| PNone
| PBool (b : bool)
| PInt (n : Z)
| PFloat (x : float)
| PStr (s : string)
| PList (items : list pyvalue)
| PDict (entries : list (string * pyvalue)).
#[local] Set Elimination Schemes.

(** The Python value of a body built by [jsonify], once decoded again. *)
Fixpoint to_py (j : json) : pyvalue :=
  match j with
  | JNum x => PFloat x
  | JStr s => PStr s
  | JArr items => PList (map to_py items)
  | JObj fields => PDict (map (fun kv => (fst kv, to_py (snd kv))) fields)
  end.

(** An exception, as the [except] clauses see it: whether it is a
    [requests.exceptions.RequestException], and its [str]. *)
Record exn : Type := Exn { is_request_exception : bool; message : string }.

Inductive outcome (A : Type) : Type :=
| Returns (a : A)
| Raises (e : exn).
Arguments Returns {A} a.
Arguments Raises {A} e.

(** The fields of a [requests.Response] that the client reads; [json_value]
    is what [response.json()] does. *)
Record http_response : Type := HttpResponse {
  status_code : Z;
  reason : string;
  url : string;
  content_type : option string;
  json_value : outcome pyvalue
}.

(** [str(n)] for an [int]. *)
Definition str_int (n : Z) : string := NilZero.string_of_int (Z.to_int n).

(** [needle in haystack] on strings. *)
Fixpoint is_substring (needle haystack : string) : bool :=
  String.prefix needle haystack
  || match haystack with
     | EmptyString => false
     | String _ rest => is_substring needle rest
     end.

(** [entries.get(key, default)] on a decoded object. *)
Fixpoint dict_get (key : string) (entries : list (string * pyvalue))
  (default : pyvalue) : pyvalue :=
  match entries with
  | [] => default
  | (k, v) :: rest => if (k =? key)%string then v else dict_get key rest default
  end.

(** [type(v).__name__]. *)
Definition type_name (v : pyvalue) : string :=
  match v with
  | PNone => "NoneType"
  | PBool _ => "bool"
  | PInt _ => "int"
  | PFloat _ => "float"
  | PStr _ => "str"
  | PList _ => "list"
  | PDict _ => "dict"
  end.

(** [response.raise_for_status()]: the [HTTPError] of a 4xx or 5xx status. *)
Definition raise_for_status (r : http_response) : option exn :=
  if (400 <=? status_code r) && (status_code r <? 500) then
    Some (Exn true (str_int (status_code r) ++ " Client Error: " ++ reason r
                    ++ " for url: " ++ url r))
  else if (500 <=? status_code r) && (status_code r <? 600) then
    Some (Exn true (str_int (status_code r) ++ " Server Error: " ++ reason r
                    ++ " for url: " ++ url r))
  else None.

Definition BACKEND_URL : string := "https://smart-t-shirt.onrender.com".

Definition VALID_MODES : list string := ["normal"; "abnormal"; "stopped"].

Record cli_result : Type := CliResult {
  printed : list string;
  posted : list string;
  exit_code : option Z
}.

Section Client.

(** [str(v)] of a decoded value, as an f-string formats it. *)
Variable py_str : pyvalue -> string.

(** [requests.post(url)]: the network and the server behind it. *)
Variable post : string -> outcome http_response.

(** [f"{v}"]. *)
Definition format_value (v : pyvalue) : string :=
  match v with
  | PStr s => s
  | _ => py_str v
  end.

(** The body of the [try]: the line printed when nothing is raised. *)
Definition request_mode (target : string) : outcome string :=
  match post target with
  | Raises e => Raises e
  | Returns response =>
      match raise_for_status response with
      | Some e => Raises e
      | None =>
          if is_substring "application/json"
               match content_type response with Some h => h | None => "" end
          then
            match json_value response with
            | Raises e => Raises e
            | Returns (PDict response_data) =>
                Returns
                  ("Success: Backend responded with status '"
                   ++ format_value (dict_get "status" response_data (PStr "N/A"))
                   ++ "', new mode is '"
                   ++ format_value (dict_get "new_mode" response_data (PStr "N/A"))
                   ++ "'")
            | Returns other =>
                Raises (Exn false ("'" ++ type_name other
                                   ++ "' object has no attribute 'get'"))
            end
          else
            Returns ("Success: Received non-JSON response (Status code: "
                     ++ str_int (status_code response) ++ ")")
      end
  end.

Definition set_backend_mode (mode : string) : cli_result :=
  if negb (contains mode VALID_MODES) then
    {| printed := ["Error: Invalid mode '" ++ mode ++ "'. Choose from: "
                   ++ join ", " VALID_MODES];
       posted := [];
       exit_code := Some 1 |}
  else
    let target := BACKEND_URL ++ "/set_mode/" ++ mode in
    let sending := "Sending request to set mode to '" ++ mode ++ "' at "
                   ++ target ++ "..." in
    match request_mode target with
    | Returns line =>
        {| printed := [sending; line]; posted := [target]; exit_code := None |}
    | Raises e =>
        {| printed := [sending;
                       (if is_request_exception e
                        then "Error connecting to backend: "
                        else "An unexpected error occurred: ") ++ message e];
           posted := [target];
           exit_code := Some 1 |}
    end.

End Client.

(** The response of the Flask view [r] as the client receives it from the
    URL [target]: its status, the JSON content type of [jsonify], and the
    body decoded again. *)
Definition flask_response (target phrase : string) (r : response)
  : http_response :=
  {| status_code := status r;
     reason := phrase;
     url := target;
     content_type := Some "application/json";
     json_value := Returns (to_py (body r)) |}.

(** A backend that cannot be reached, and one that answers every request
    with the given response of a Flask view. *)
Definition unreachable (target : string) : outcome http_response :=
  Raises (Exn true "Connection refused").

Definition answering (phrase : string) (r : response) (target : string)
  : outcome http_response :=
  Returns (flask_response target phrase r).

(** ** Rounding of the binary64 operations

    The float results of the module are bounded through [SpecFloat], the
    specification of the primitive operations. *)

(** [mrs] is [M] shifted right by [k] places: its mantissa is the quotient
    and, when no bit was shifted out, its round and sticky bits are clear. *)
Definition shr_inv (M k : Z) (mrs : shr_record) : Prop :=
  0 <= k /\ shr_m mrs = M / 2 ^ k /\
  (M mod 2 ^ k = 0 -> shr_r mrs = false /\ shr_s mrs = false).

(** The float that the rounded mantissa [mr] at exponent [e1] normalises
    to: a zero, the mantissa itself, or [2^52] one exponent up when the
    rounding carried into the 54th bit. *)
Inductive normalises_to (mr e1 : Z) : spec_float -> Prop :=
| normalises_to_zero :
    mr = 0 -> normalises_to mr e1 (S754_zero false)
| normalises_to_finite (p : positive) :
    mr = Z.pos p -> mr < 2 ^ 53 ->
    normalises_to mr e1 (S754_finite false p e1)
| normalises_to_carry :
    mr = 2 ^ 53 ->
    normalises_to mr e1 (S754_finite false 4503599627370496 (e1 + 1)).

(** The float that the rounded mantissa [mr] at exponent [e1] normalises
    to when the exponent range is not assumed: as [normalises_to], or the
    infinity beyond the largest exponent. *)
Inductive rounds_into (mr e1 : Z) : spec_float -> Prop :=
| rounds_into_zero :
    mr = 0 -> rounds_into mr e1 (S754_zero false)
| rounds_into_finite (p : positive) :
    mr = Z.pos p -> mr < 2 ^ 53 -> e1 <= 971 ->
    rounds_into mr e1 (S754_finite false p e1)
| rounds_into_carry :
    mr = 2 ^ 53 -> e1 + 1 <= 971 ->
    rounds_into mr e1 (S754_finite false 4503599627370496 (e1 + 1))
| rounds_into_infinity :
    0 < mr -> 971 < e1 \/ (mr = 2 ^ 53 /\ 971 < e1 + 1) ->
    rounds_into mr e1 (S754_infinity false).

(** [x] is the positive integer [n], below [2^53]: its mantissa and
    exponent read [n] exactly. *)
Definition integer_float (n : Z) (x : float) : Prop :=
  exists m e, Prim2SF x = S754_finite false m e
              /\ -1074 < e <= 0 /\ Z.pos m = n * 2 ^ (- e).

(** The double of the decimal [z / 100] lies between [L] and [U]. *)
Definition decimal_between (L U : float) (z : Z) : bool :=
  let v := decimal false (Z.to_pos z) 2 in
  (L <=? v)%float && (v <=? U)%float.

(** The double of the decimal [z / 100] lies between 130 and 180. *)
Definition spike_decimal_in_range (z : Z) : bool :=
  let v := decimal false (Z.to_pos z) 2 in
  (130 <=? v)%float && (v <=? 180)%float.

(** ** Properties *)

(** *** Membership in the allow-list *)

Lemma contains_In (x : string) (xs : list string) :
  contains x xs = true <-> In x xs.
Proof.
  unfold contains. rewrite existsb_exists. split.
  - intros [y [Hy Heq]]. apply String.eqb_eq in Heq. now subst.
  - intros Hx. exists x. split; [exact Hx | apply String.eqb_refl].
Qed.

Lemma valid_modes_names (m : string) :
  contains m valid_modes = true <-> In m ["stopped"; "normal"; "abnormal"].
Proof.
  rewrite contains_In. unfold valid_modes. simpl. tauto.
Qed.

Lemma invalid_mode_rejected (m : string) :
  ~ In m ["stopped"; "normal"; "abnormal"] -> contains m valid_modes = false.
Proof.
  intros Hm. destruct (contains m valid_modes) eqn:E; [|reflexivity].
  apply valid_modes_names in E. contradiction.
Qed.

Ltac string_cases :=
  repeat match goal with
    | |- context [String.eqb ?a ?b] => destruct (String.eqb_spec a b)
    | H : context [String.eqb ?a ?b] |- _ => destruct (String.eqb_spec a b)
    end.

(** *** The mode controller *)

(** C1: for a valid mode [m], [set_mode] answers success and makes [m] the
    current mode, which [get_status] then reports; it sets [current_time_ms]
    to the wall clock and [phase] to [0.0] exactly when the mode was
    [stopped] and [m] is not, and keeps both otherwise. *)
Theorem set_mode_valid `{Runtime} (c : clock) (w : world) (m : string) :
  In m ["stopped"; "normal"; "abnormal"] ->
  let w' := snd (set_mode c m w) in
  fst (set_mode c m w)
    = Response (JObj [("status", JStr "success"); ("new_mode", JStr m)]) 200 /\
  generation_mode w' = m /\
  get_status w' = Response (JObj [("mode", JStr m)]) 200 /\
  (generation_mode w = "stopped" /\ m <> "stopped" ->
     current_time_ms w' = time_ms c /\ phase w' = 0%float) /\
  (~ (generation_mode w = "stopped" /\ m <> "stopped") ->
     current_time_ms w' = current_time_ms w /\ phase w' = phase w).
Proof.
  intros Hm w'. subst w'. apply valid_modes_names in Hm.
  unfold set_mode, get_status. rewrite Hm.
  string_cases; simpl; repeat split; tauto.
Qed.

(** C3: a string that is not exactly one of the three mode names is
    answered with the error response, status 400, and the world is the one
    before the call. *)
Theorem set_mode_invalid `{Runtime} (c : clock) (w : world) (m : string) :
  ~ In m ["stopped"; "normal"; "abnormal"] ->
  status (fst (set_mode c m w)) = 400 /\
  (exists msg, body (fst (set_mode c m w))
               = JObj [("status", JStr "error"); ("message", JStr msg)]) /\
  snd (set_mode c m w) = w.
Proof.
  intros Hm. unfold set_mode. rewrite (invalid_mode_rejected m Hm). simpl.
  repeat split. eexists. reflexivity.
Qed.

(** C9 (as amended): an invalid mode is answered with status 400 and the
    body [{"status": "error", "message": "Invalid mode. Use one of: normal,
    abnormal, stopped"}]: the names come in the order of [valid_modes]. *)
Theorem set_mode_invalid_response `{Runtime} (c : clock) (w : world) (m : string) :
  ~ In m ["stopped"; "normal"; "abnormal"] ->
  fst (set_mode c m w)
    = Response
        (JObj [("status", JStr "error");
               ("message",
                JStr "Invalid mode. Use one of: normal, abnormal, stopped")])
        400.
Proof.
  intros Hm. unfold set_mode. rewrite (invalid_mode_rejected m Hm). reflexivity.
Qed.

(** *** Binary64 rounding *)

(** The number of binary digits of a mantissa. *)
Lemma digits2_pos_log2 (p : positive) :
  Z.pos (digits2_pos p) = Z.log2 (Z.pos p) + 1.
Proof.
  induction p as [p IH | p IH |]; simpl digits2_pos.
  - rewrite Pos2Z.inj_succ, IH.
    change (Z.pos p~1) with (2 * Z.pos p + 1). rewrite Z.log2_succ_double; lia.
  - rewrite Pos2Z.inj_succ, IH.
    change (Z.pos p~0) with (2 * Z.pos p). rewrite Z.log2_double; lia.
  - reflexivity.
Qed.

Lemma digits2_pos_bounds (p : positive) :
  2 ^ (Z.pos (digits2_pos p) - 1) <= Z.pos p < 2 ^ Z.pos (digits2_pos p).
Proof.
  rewrite digits2_pos_log2.
  replace (Z.log2 (Z.pos p) + 1 - 1) with (Z.log2 (Z.pos p)) by lia.
  replace (Z.log2 (Z.pos p) + 1) with (Z.succ (Z.log2 (Z.pos p))) by lia.
  apply Z.log2_spec. lia.
Qed.

Lemma digits2_pos_unique (p : positive) (d : Z) :
  2 ^ (d - 1) <= Z.pos p < 2 ^ d -> Z.pos (digits2_pos p) = d.
Proof.
  intros Hd. rewrite digits2_pos_log2.
  assert (0 < d).
  { destruct (Z.lt_trichotomy d 0) as [Hn | [Hz | Hp]]; [| | exact Hp].
    - rewrite (Z.pow_neg_r 2 d Hn) in Hd. lia.
    - subst d. simpl in Hd. lia. }
  rewrite (Z.log2_unique (Z.pos p) (d - 1)); [lia | lia |].
  replace (Z.succ (d - 1)) with d by lia. exact Hd.
Qed.

(** Shifting a mantissa right, as [binary_round_aux] does before and
    after it rounds. *)
Lemma shr_inv_start (M : Z) : shr_inv M 0 (Build_shr_record M false false).
Proof.
  unfold shr_inv. simpl. rewrite Z.div_1_r. repeat split. lia.
Qed.

Lemma shr_1_m (mrs : shr_record) :
  0 <= shr_m mrs ->
  shr_m (shr_1 mrs) = shr_m mrs / 2 /\
  shr_r (shr_1 mrs) = Z.odd (shr_m mrs) /\
  shr_s (shr_1 mrs) = shr_r mrs || shr_s mrs.
Proof.
  destruct mrs as [m r s]. simpl. intros Hm.
  destruct m as [| p | p]; [| | lia].
  - repeat split.
  - destruct p as [p | p |]; simpl; repeat split.
    + change (Z.pos p~1) with (2 * Z.pos p + 1).
      apply (Z.div_unique _ 2 _ 1); lia.
    + change (Z.pos p~0) with (2 * Z.pos p).
      apply (Z.div_unique _ 2 _ 0); lia.
Qed.

Lemma shr_inv_step (M k : Z) (mrs : shr_record) :
  0 <= M -> shr_inv M k mrs -> shr_inv M (k + 1) (shr_1 mrs).
Proof.
  intros HM (Hk & Hm & Hx).
  assert (Hpos : 0 < 2 ^ k) by (apply Z.pow_pos_nonneg; lia).
  assert (Hm0 : 0 <= shr_m mrs).
  { rewrite Hm. apply Z.div_pos; lia. }
  destruct (shr_1_m mrs Hm0) as (H1 & H2 & H3).
  assert (Hpow : 2 ^ (k + 1) = 2 ^ k * 2) by (rewrite Z.pow_add_r; lia).
  split; [lia |]. split.
  - rewrite H1, Hm, Hpow. rewrite Z.div_div; lia.
  - intros Hz. rewrite Hpow in Hz.
    assert (HMk : M = 2 ^ k * 2 * (M / (2 ^ k * 2))).
    { pose proof (Z.div_mod M (2 ^ k * 2)). lia. }
    assert (Hz' : M mod 2 ^ k = 0).
    { rewrite HMk. rewrite <- Z.mul_assoc, Z.mul_comm. apply Z.mod_mul. lia. }
    destruct (Hx Hz') as [Hr Hs]. rewrite H2, H3, Hr, Hs. split; [| reflexivity].
    rewrite Hm. rewrite HMk.
    replace (2 ^ k * 2 * (M / (2 ^ k * 2))) with ((2 * (M / (2 ^ k * 2))) * 2 ^ k) by lia.
    rewrite Z.div_mul by lia. rewrite Z.odd_mul. reflexivity.
Qed.

Lemma shr_inv_iter (M : Z) (p : positive) :
  0 <= M ->
  forall k mrs, shr_inv M k mrs -> shr_inv M (k + Z.pos p) (iter_pos shr_1 p mrs).
Proof.
  intros HM. induction p as [p IH | p IH |]; intros k mrs Hinv; simpl.
  - replace (k + Z.pos p~1) with (k + 1 + Z.pos p + Z.pos p) by lia.
    apply IH, IH. now apply shr_inv_step.
  - replace (k + Z.pos p~0) with (k + Z.pos p + Z.pos p) by lia.
    apply IH, IH. exact Hinv.
  - now apply shr_inv_step.
Qed.

Lemma round_nearest_even_faithful (mrs : shr_record) :
  let m := round_nearest_even (shr_m mrs) (loc_of_shr_record mrs) in
  shr_m mrs <= m <= shr_m mrs + 1 /\
  (shr_r mrs = false /\ shr_s mrs = false -> m = shr_m mrs).
Proof.
  destruct mrs as [m [|] [|]]; simpl.
  - split; [lia | intros [E _]; discriminate E].
  - split; [destruct (Z.even m); lia | intros [E _]; discriminate E].
  - split; [lia | intros [_ E]; discriminate E].
  - split; [lia | reflexivity].
Qed.

Lemma fexp_eq (x : Z) : fexp prec emax x = Z.max (x - 53) (-1074).
Proof. reflexivity. Qed.

Lemma shr_spec (M ex k : Z) :
  0 <= M -> 0 <= k ->
  exists mrs, shr (Build_shr_record M false false) ex k = (mrs, ex + k)
              /\ shr_inv M k mrs.
Proof.
  intros HM Hk. destruct k as [| p | p]; [| | lia].
  - exists (Build_shr_record M false false). simpl. rewrite Z.add_0_r.
    split; [reflexivity | apply shr_inv_start].
  - exists (iter_pos shr_1 p (Build_shr_record M false false)). simpl.
    split; [reflexivity |].
    apply (shr_inv_iter M p HM 0). apply shr_inv_start.
Qed.

Lemma shr_none (mrs : shr_record) (e n : Z) :
  n <= 0 -> shr mrs e n = (mrs, e).
Proof. destruct n; [reflexivity | lia | reflexivity]. Qed.

Lemma shr_fexp_zero (e1 : Z) :
  -1074 <= e1 ->
  shr_fexp prec emax 0 e1 loc_Exact = (Build_shr_record 0 false false, e1).
Proof.
  intros He. unfold shr_fexp. apply shr_none.
  change (Zdigits2 0) with 0. rewrite fexp_eq. lia.
Qed.

Lemma shr_fexp_small (p : positive) (e1 : Z) :
  -1074 <= e1 -> Z.pos p < 2 ^ 53 ->
  shr_fexp prec emax (Z.pos p) e1 loc_Exact
  = (Build_shr_record (Z.pos p) false false, e1).
Proof.
  intros He Hp. unfold shr_fexp. apply shr_none.
  change (Zdigits2 (Z.pos p)) with (Z.pos (digits2_pos p)). rewrite fexp_eq.
  assert (Hd : Z.pos (digits2_pos p) <= 53).
  { destruct (Z.le_gt_cases (Z.pos (digits2_pos p)) 53) as [L | G]; [exact L |].
    pose proof (digits2_pos_bounds p) as [Hlow _].
    assert (2 ^ 53 <= 2 ^ (Z.pos (digits2_pos p) - 1))
      by (apply Z.pow_le_mono_r; lia). lia. }
  lia.
Qed.

Lemma shr_fexp_carry (e1 : Z) :
  -1074 <= e1 ->
  shr_fexp prec emax 9007199254740992 e1 loc_Exact
  = (Build_shr_record 4503599627370496 false false, e1 + 1).
Proof.
  intros He. unfold shr_fexp.
  change (Zdigits2 9007199254740992) with 54. rewrite fexp_eq.
  replace (Z.max (54 + e1 - 53) (-1074) - e1) with 1 by lia.
  reflexivity.
Qed.

Lemma shr_fexp_first (mx : positive) (ex : Z) :
  let e1 := fexp prec emax (Z.pos (digits2_pos mx) + ex) in
  0 <= e1 - ex ->
  exists mrs, shr_fexp prec emax (Z.pos mx) ex loc_Exact = (mrs, e1)
              /\ shr_inv (Z.pos mx) (e1 - ex) mrs.
Proof.
  intros e1 Hk.
  destruct (shr_spec (Z.pos mx) ex (e1 - ex) ltac:(lia) Hk) as (mrs & Hshr & Hinv).
  exists mrs. split; [| exact Hinv].
  unfold shr_fexp. change (Zdigits2 (Z.pos mx)) with (Z.pos (digits2_pos mx)).
  fold e1. simpl shr_record_of_loc. rewrite Hshr. f_equal. lia.
Qed.

Lemma binary_round_aux_exact (mx : positive) (ex : Z) :
  let e1 := fexp prec emax (Z.pos (digits2_pos mx) + ex) in
  let k := e1 - ex in
  0 <= k -> e1 + 1 <= 971 ->
  exists mr : Z,
    Z.pos mx / 2 ^ k <= mr <= Z.pos mx / 2 ^ k + 1 /\
    (Z.pos mx mod 2 ^ k = 0 -> mr = Z.pos mx / 2 ^ k) /\
    normalises_to mr e1 (binary_round_aux prec emax false (Z.pos mx) ex loc_Exact).
Proof.
  intros e1 k Hk He1.
  assert (Hemin : -1074 <= e1) by (subst e1; rewrite fexp_eq; lia).
  assert (Hkd : Z.pos (digits2_pos mx) - 53 <= k)
    by (subst k e1; rewrite fexp_eq; lia).
  destruct (shr_fexp_first mx ex Hk) as (mrs & Hshr & Hinv). fold e1 in Hshr.
  destruct Hinv as (_ & Hm & Hx).
  change (shr_m mrs = Z.pos mx / 2 ^ k) in Hm.
  change (Z.pos mx mod 2 ^ k = 0 -> shr_r mrs = false /\ shr_s mrs = false) in Hx.
  pose proof (round_nearest_even_faithful mrs) as Hrne. simpl in Hrne.
  set (mr := round_nearest_even (shr_m mrs) (loc_of_shr_record mrs)) in *.
  destruct Hrne as [Hb Hexact].
  assert (Hpk : 0 < 2 ^ k) by (apply Z.pow_pos_nonneg; lia).
  assert (Hlt : Z.pos mx / 2 ^ k < 2 ^ 53).
  { apply Z.div_lt_upper_bound; [exact Hpk |].
    rewrite <- Z.pow_add_r by lia.
    apply Z.lt_le_trans with (2 ^ Z.pos (digits2_pos mx)).
    - apply digits2_pos_bounds.
    - apply Z.pow_le_mono_r; lia. }
  assert (H0 : 0 <= Z.pos mx / 2 ^ k) by (apply Z.div_pos; lia).
  exists mr. rewrite <- Hm. split; [exact Hb |]. split.
  - intros Hz. apply Hexact. now apply Hx.
  - unfold binary_round_aux. rewrite Hshr. fold mr.
    destruct mr as [| p | p] eqn:Emr; [| | lia].
    + rewrite shr_fexp_zero by exact Hemin. simpl.
      constructor. reflexivity.
    + destruct (Z.eq_dec (Z.pos p) (2 ^ 53)) as [E53 | N53].
      * assert (Ep : p = 9007199254740992%positive) by (apply Pos2Z.inj; exact E53).
        subst p. rewrite shr_fexp_carry by exact Hemin. simpl.
        replace (e1 + 1 <=? 971) with true by (symmetry; apply Z.leb_le; lia).
        apply normalises_to_carry. reflexivity.
      * assert (Hp53 : Z.pos p < 2 ^ 53) by lia.
        rewrite shr_fexp_small by assumption. simpl.
        replace (e1 <=? 971) with true by (symmetry; apply Z.leb_le; lia).
        apply normalises_to_finite; [reflexivity | exact Hp53].
Qed.

(** The order of two positive finite floats, read off their mantissas
    and exponents. *)
Lemma SFleb_finite (m1 m2 : positive) (e1 e2 : Z) :
  SFleb (S754_finite false m1 e1) (S754_finite false m2 e2) = true
  <-> e1 < e2 \/ (e1 = e2 /\ Z.pos m1 <= Z.pos m2).
Proof.
  unfold SFleb, SFcompare.
  destruct (Z.compare_spec e1 e2) as [E | L | G].
  - change (Pos.compare_cont Eq m1 m2) with (Pos.compare m1 m2).
    destruct (Pos.compare_spec m1 m2) as [Em | Lm | Gm];
      split; intros Hc; try discriminate; try reflexivity; lia.
  - split; [lia | reflexivity].
  - split; [discriminate | lia].
Qed.

Lemma SFltb_finite (m1 m2 : positive) (e1 e2 : Z) :
  SFltb (S754_finite false m1 e1) (S754_finite false m2 e2) = true
  <-> e1 < e2 \/ (e1 = e2 /\ Z.pos m1 < Z.pos m2).
Proof.
  unfold SFltb, SFcompare.
  destruct (Z.compare_spec e1 e2) as [E | L | G].
  - change (Pos.compare_cont Eq m1 m2) with (Pos.compare m1 m2).
    destruct (Pos.compare_spec m1 m2) as [Em | Lm | Gm];
      split; intros Hc; try discriminate; try reflexivity; lia.
  - split; [lia | reflexivity].
  - split; [discriminate | lia].
Qed.

Lemma valid_binary_finite (s : bool) (m : positive) (e : Z) :
  valid_binary (S754_finite s m e) = true ->
  Z.pos (digits2_pos m) <= 53 /\ -1074 <= e.
Proof.
  unfold SpecFloat.valid_binary, bounded, canonical_mantissa. intros H.
  apply andb_true_iff in H. destruct H as [H _].
  apply Z.eqb_eq in H. rewrite fexp_eq in H. lia.
Qed.

Lemma pos_lt_pow53 (m : positive) :
  Z.pos (digits2_pos m) <= 53 -> Z.pos m < 2 ^ 53.
Proof.
  intros Hd. apply Z.lt_le_trans with (2 ^ Z.pos (digits2_pos m)).
  - apply digits2_pos_bounds.
  - apply Z.pow_le_mono_r; lia.
Qed.

(** A quotient rounded to one of its two neighbours, and exactly when it
    is exact, stays within integer bounds of the exact value. *)
Lemma faithful_upper (M d mr T : Z) :
  0 < d -> M / d <= mr <= M / d + 1 -> (M mod d = 0 -> mr = M / d) ->
  M <= T * d -> mr <= T.
Proof.
  intros Hd Hb Hx HT.
  pose proof (Z.div_mod M d ltac:(lia)) as Hdm.
  pose proof (Z.mod_pos_bound M d Hd) as Hr.
  destruct (Z.eq_dec (M mod d) 0) as [E | N].
  - rewrite (Hx E). apply Z.div_le_upper_bound; lia.
  - assert (M / d < T); [| lia].
    apply Z.div_lt_upper_bound; [exact Hd |].
    destruct (Z.eq_dec M (T * d)) as [E' | N']; [| lia].
    exfalso. apply N. rewrite E'. apply Z.mod_mul. lia.
Qed.

Lemma faithful_lower (M d mr T : Z) :
  0 < d -> M / d <= mr -> T * d <= M -> T <= mr.
Proof.
  intros Hd Hb HT.
  assert (T <= M / d); [| lia].
  apply Z.div_le_lower_bound; lia.
Qed.

Lemma iter_xO (d p : positive) :
  Z.pos (Pos.iter xO p d) = Z.pos p * 2 ^ Z.pos d.
Proof.
  revert p. induction d as [| d IH] using Pos.peano_ind; intros p.
  - simpl. lia.
  - rewrite Pos.iter_succ. rewrite Pos2Z.inj_succ, Z.pow_succ_r by lia.
    change (Z.pos (Pos.iter xO p d)~0) with (2 * Z.pos (Pos.iter xO p d)).
    rewrite IH. lia.
Qed.

Lemma pow2_lt_exp (a b : Z) : 0 <= b -> 2 ^ a < 2 ^ b -> a < b.
Proof. intros Hb H. apply (Z.pow_lt_mono_r_iff 2); lia. Qed.

(** [50 * v] lies in [[0, 50]] for [v] in [[0, 1)]. *)
Lemma mul_50_unit (v : float) :
  (0 <=? v)%float = true -> (v <? 1)%float = true ->
  (0 <=? 50 * v)%float = true /\ (50 * v <=? 50)%float = true.
Proof.
  rewrite !leb_spec, ltb_spec, mul_spec.
  change (Prim2SF 0) with (S754_zero false).
  change (Prim2SF 1) with (S754_finite false 4503599627370496 (-52)).
  change (Prim2SF 50) with (S754_finite false 7036874417766400 (-47)).
  pose proof (Prim2SF_valid v) as Hv.
  destruct (Prim2SF v) as [s | s | | s m e]; intros H0 H1.
  - destruct s; split; reflexivity.
  - destruct s; discriminate.
  - discriminate.
  - destruct s; [discriminate |].
    apply SFltb_finite in H1.
    apply valid_binary_finite in Hv. destruct Hv as [Hd He].
    pose proof (pos_lt_pow53 m Hd) as Hm53.
    assert (Hm : Z.pos m < 2 ^ (- e)).
    { destruct H1 as [L | [E L]].
      - apply Z.lt_le_trans with (2 ^ 53); [exact Hm53 |].
        apply Z.pow_le_mono_r; lia.
      - subst e. exact L. }
    assert (Hem : e <= -52) by lia.
    unfold SF64mul, SFmul. change (xorb false false) with false.
    set (mx := (7036874417766400 * m)%positive).
    assert (Hmx : Z.pos mx = 25 * 2 ^ 48 * Z.pos m).
    { subst mx. rewrite Pos2Z.inj_mul. reflexivity. }
    pose proof (digits2_pos_bounds mx) as [Hdl Hdu].
    set (d := Z.pos (digits2_pos mx)) in *.
    assert (Hp48 : 2 ^ 48 = 281474976710656) by reflexivity.
    assert (Hp52 : 2 ^ 52 = 4503599627370496) by reflexivity.
    assert (Hd53 : 53 <= d).
    { assert (H : 2 ^ 52 < 2 ^ d) by lia.
      apply pow2_lt_exp in H; lia. }
    assert (Hpe : 0 < 2 ^ (- e)) by (apply Z.pow_pos_nonneg; lia).
    assert (Hmxu : Z.pos mx < 25 * 2 ^ 48 * 2 ^ (- e)).
    { rewrite Hmx. apply Z.mul_lt_mono_pos_l; [lia | exact Hm]. }
    assert (Hdu6 : d <= 53 - e).
    { assert (H : 2 ^ (d - 1) < 2 ^ (53 - e)).
      { apply Z.le_lt_trans with (Z.pos mx); [exact Hdl |].
        apply Z.lt_le_trans with (25 * 2 ^ 48 * 2 ^ (- e)); [exact Hmxu |].
        replace (53 - e) with (53 + - e) by lia.
        rewrite (Z.pow_add_r 2 53) by lia.
        apply Z.mul_le_mono_nonneg_r; [lia |].
        rewrite Hp48. change (2 ^ 53) with 9007199254740992. lia. }
      apply pow2_lt_exp in H; lia. }
    pose proof (binary_round_aux_exact mx (-47 + e)) as HR.
    cbv zeta in HR. fold d in HR. rewrite fexp_eq in HR.
    set (e1 := Z.max (d + (-47 + e) - 53) (-1074)) in *.
    assert (He1 : e1 <= -47) by (subst e1; lia).
    assert (He1l : -47 + e <= e1) by (subst e1; lia).
    destruct (HR ltac:(lia) ltac:(lia)) as (mr & Hb & Hx & Hres). clear HR.
    set (k := e1 - (-47 + e)) in *.
    assert (Hk : 0 <= k) by (subst k; lia).
    assert (Hpk : 0 < 2 ^ k) by (apply Z.pow_pos_nonneg; lia).
    assert (Hup : mr <= 25 * 2 ^ (1 - e1)).
    { apply (faithful_upper (Z.pos mx) (2 ^ k) mr); try assumption.
      rewrite <- Z.mul_assoc, <- Z.pow_add_r by lia.
      replace (1 - e1 + k) with (48 + - e) by (subst k; lia).
      rewrite Z.pow_add_r by lia. lia. }
    set (r := binary_round_aux prec emax false (Z.pos mx) (-47 + e) loc_Exact) in *.
    clearbody r. destruct Hres as [Hz | p Hp Hlt | Hc].
    + split; reflexivity.
    + split; [reflexivity |]. apply SFleb_finite.
      destruct (Z.eq_dec e1 (-47)) as [E | N]; [right | left; lia].
      split; [exact E |]. rewrite <- Hp.
      replace (1 - e1) with 48 in Hup by lia. rewrite Hp48 in Hup. lia.
    + split; [reflexivity |]. apply SFleb_finite.
      assert (e1 < -47).
      { assert (H : 2 ^ 53 < 2 ^ (6 - e1)).
        { rewrite <- Hc. apply Z.le_lt_trans with (25 * 2 ^ (1 - e1)); [exact Hup |].
          replace (6 - e1) with (5 + (1 - e1)) by lia.
          rewrite (Z.pow_add_r 2 5) by lia.
          assert (0 < 2 ^ (1 - e1)) by (apply Z.pow_pos_nonneg; lia).
          change (2 ^ 5) with 32. lia. }
        apply pow2_lt_exp in H; lia. }
      destruct (Z.eq_dec (e1 + 1) (-47)) as [E | N]; [right | left; lia].
      split; [exact E | lia].
Qed.

Lemma SFadd_aligned (mA m : positive) (eA e : Z) :
  e < eA ->
  SFadd prec emax (S754_finite false mA eA) (S754_finite false m e)
  = binary_round prec emax false
      (Pos.iter xO mA (Z.to_pos (eA - e)) + m)%positive e.
Proof.
  intros He. unfold SFadd. replace (Z.min eA e) with e by lia.
  unfold shl_align. replace (e - e) with 0 by lia.
  destruct (e - eA) as [| d | d] eqn:Ed; [lia | lia |].
  replace (eA - e) with (Z.pos d) by lia.
  reflexivity.
Qed.

Lemma binary_round_no_shl (mx : positive) (ex : Z) :
  ex <= fexp prec emax (Z.pos (digits2_pos mx) + ex) ->
  binary_round prec emax false mx ex
  = binary_round_aux prec emax false (Z.pos mx) ex loc_Exact.
Proof.
  intros He. unfold binary_round, shl_align.
  destruct (fexp prec emax (Z.pos (digits2_pos mx) + ex) - ex) eqn:Ed;
    [reflexivity | reflexivity | lia].
Qed.

(** [130 + y] lies in [[130, 180]] for [y] in [[0, 50]]: its exponent is
    [-45] and its mantissa between those of 130 and 180. *)
Lemma add_130_bounded (y : float) :
  (0 <=? y)%float = true -> (y <=? 50)%float = true ->
  exists p, Prim2SF (130 + y)%float = S754_finite false p (-45)
            /\ 4573968371548160 <= Z.pos p <= 6333186975989760.
Proof.
  rewrite !leb_spec, add_spec.
  change (Prim2SF 0) with (S754_zero false).
  change (Prim2SF 50) with (S754_finite false 7036874417766400 (-47)).
  change (Prim2SF 130) with (S754_finite false 4573968371548160 (-45)).
  pose proof (Prim2SF_valid y) as Hv.
  destruct (Prim2SF y) as [s | s | | s m e]; intros H0 H1.
  - exists 4573968371548160%positive. split; [destruct s; reflexivity | lia].
  - destruct s; discriminate.
  - discriminate.
  - destruct s; [discriminate |].
    apply SFleb_finite in H1.
    apply valid_binary_finite in Hv. destruct Hv as [Hd He].
    pose proof (pos_lt_pow53 m Hd) as Hm53.
    assert (Hem : e <= -47) by lia.
    assert (Hpe : 0 < 2 ^ (- 47 - e)) by (apply Z.pow_pos_nonneg; lia).
    assert (Hp53 : 2 ^ 53 = 9007199254740992) by reflexivity.
    assert (Hm : Z.pos m <= 7036874417766400 * 2 ^ (- 47 - e)).
    { destruct H1 as [L | [E L]].
      - assert (2 <= 2 ^ (-47 - e)); [| lia].
        change 2 with (2 ^ 1) at 1. apply Z.pow_le_mono_r; lia.
      - subst e. change (2 ^ (-47 - -47)) with 1. lia. }
    unfold SF64add. rewrite SFadd_aligned by lia.
    set (S := (Pos.iter xO 4573968371548160 (Z.to_pos (-45 - e)) + m)%positive).
    assert (HS : Z.pos S = 18295873486192640 * 2 ^ (-47 - e) + Z.pos m).
    { subst S. rewrite Pos2Z.inj_add, iter_xO. rewrite Z2Pos.id by lia.
      replace (-45 - e) with (2 + (-47 - e)) by lia.
      rewrite Z.pow_add_r by lia. change (2 ^ 2) with 4. lia. }
    set (P := 2 ^ (-47 - e)) in *.
    assert (HSl : 18295873486192640 * P <= Z.pos S) by lia.
    assert (HSu : Z.pos S <= 25332747903959040 * P) by lia.
    assert (Hdig : Z.pos (digits2_pos S) = 8 - e).
    { apply digits2_pos_unique. split.
      - replace (8 - e - 1) with (54 + (-47 - e)) by lia.
        rewrite Z.pow_add_r by lia. fold P.
        change (2 ^ 54) with 18014398509481984. lia.
      - replace (8 - e) with (55 + (-47 - e)) by lia.
        rewrite Z.pow_add_r by lia. fold P.
        change (2 ^ 55) with 36028797018963968. lia. }
    assert (Hfexp : fexp prec emax (Z.pos (digits2_pos S) + e) = -45).
    { rewrite Hdig, fexp_eq. lia. }
    rewrite binary_round_no_shl by (rewrite Hfexp; lia).
    pose proof (binary_round_aux_exact S e) as HR.
    cbv zeta in HR. rewrite Hfexp in HR.
    destruct (HR ltac:(lia) ltac:(lia)) as (mr & Hb & Hx & Hres). clear HR.
    replace (-45 - e) with (2 + (-47 - e)) in Hb, Hx by lia.
    rewrite Z.pow_add_r in Hb, Hx by lia. fold P in Hb, Hx.
    change (2 ^ 2) with 4 in Hb, Hx.
    assert (Hlo : 4573968371548160 <= mr).
    { apply (faithful_lower (Z.pos S) (4 * P) mr); lia. }
    assert (Hhi : mr <= 6333186975989760).
    { apply (faithful_upper (Z.pos S) (4 * P) mr); try assumption; lia. }
    set (r := binary_round_aux prec emax false (Z.pos S) e loc_Exact) in *.
    clearbody r. destruct Hres as [Hz | p Hp Hlt | Hc].
    + lia.
    + exists p. split; [reflexivity | lia].
    + rewrite Hp53 in Hc. lia.
Qed.

(** [round(z, 2)] lies in [[130, 180]] for [z] in [[130, 180]]. *)
Lemma div_half_even_faithful (n d : Z) :
  0 < d ->
  n / d <= div_half_even n d <= n / d + 1 /\
  (n mod d = 0 -> div_half_even n d = n / d).
Proof.
  intros Hd. unfold div_half_even.
  destruct (Z.compare_spec (2 * (n mod d)) d) as [E | L | G].
  - split; [destruct (Z.even (n / d)); lia | intros Hz; lia].
  - split; [lia | reflexivity].
  - split; [lia | intros Hz; lia].
Qed.

Lemma forallb_range (f : Z -> bool) (lo n : Z) :
  forallb (fun i => f (lo + Z.of_nat i)) (seq 0 (Z.to_nat n)) = true ->
  forall x, lo <= x < lo + n -> f x = true.
Proof.
  intros Hall x Hx. rewrite forallb_forall in Hall.
  specialize (Hall (Z.to_nat (x - lo))).
  rewrite Z2Nat.id in Hall by lia.
  replace (lo + (x - lo)) with x in Hall by lia.
  apply Hall. apply in_seq. lia.
Qed.

(** Every decimal from 130.00 to 180.00, in steps of 0.01, converts to a
    double between 130 and 180: checked one by one. *)
Lemma spike_decimals_checked :
  forallb (fun i => spike_decimal_in_range (13000 + Z.of_nat i))
    (seq 0 (Z.to_nat 5001)) = true.
Proof. vm_compute. reflexivity. Qed.

Lemma spike_decimal_bounds (q : positive) :
  13000 <= Z.pos q <= 18000 ->
  (130 <=? decimal false q 2)%float = true
  /\ (decimal false q 2 <=? 180)%float = true.
Proof.
  intros Hq. apply andb_true_iff.
  apply (forallb_range spike_decimal_in_range 13000 5001
           spike_decimals_checked (Z.pos q)).
  lia.
Qed.

Lemma round_2_bounded (z : float) (p : positive) :
  Prim2SF z = S754_finite false p (-45) ->
  4573968371548160 <= Z.pos p <= 6333186975989760 ->
  (130 <=? round z 2)%float = true /\ (round z 2 <=? 180)%float = true.
Proof.
  intros Hz Hp. unfold round. rewrite Hz.
  change ((0 <=? -45) || (323 <? Z.of_nat 2)) with false. cbv iota.
  change (10 ^ Z.of_nat 2) with 100. change (2 ^ (- -45)) with 35184372088832.
  destruct (div_half_even_faithful (Z.pos p * 100) 35184372088832 ltac:(lia))
    as [Hb Hx].
  assert (Hlo : 13000 <= div_half_even (Z.pos p * 100) 35184372088832).
  { apply (faithful_lower (Z.pos p * 100) 35184372088832); lia. }
  assert (Hhi : div_half_even (Z.pos p * 100) 35184372088832 <= 18000).
  { apply (faithful_upper (Z.pos p * 100) 35184372088832); try assumption; lia. }
  destruct (div_half_even (Z.pos p * 100) 35184372088832) as [| q | q];
    [lia | | lia].
  apply spike_decimal_bounds. lia.
Qed.

(** The spike of the abnormal mode: for a draw [v] in [0, 1), the rounded
    [130 + 50 * v] lies between 130 and 180, both included. *)
Lemma spike_value_range (v : float) :
  (0 <=? v)%float = true -> (v <? 1)%float = true ->
  (130 <=? round (130 + 50 * v) 2)%float = true
  /\ (round (130 + 50 * v) 2 <=? 180)%float = true.
Proof.
  intros H0 H1.
  destruct (mul_50_unit v H0 H1) as [Hy0 Hy1].
  destruct (add_130_bounded (50 * v)%float Hy0 Hy1) as (p & Hz & Hp).
  exact (round_2_bounded _ p Hz Hp).
Qed.

(** *** The point generator *)

(** C4: in the stopped mode [/data] answers the empty list with status 200. *)
Theorem get_data_stopped `{Runtime} (c : clock) (w : world) :
  generation_mode w = "stopped" ->
  fst (get_data c w) = Response (JArr []) 200.
Proof.
  intros Hm. unfold get_data. rewrite Hm. reflexivity.
Qed.

(** C2: in the normal mode one call of [/data] returns the single point
    whose value is [sin(phase) * 50 + 60] rounded to two places; afterwards
    the phase is [phase + 0.5] and the simulated clock is 100 ms later. *)
Theorem get_data_normal `{Runtime} (c : clock) (w : world) :
  generation_mode w = "normal" ->
  get_data c w
    = (Response
         (JArr [point (current_time_ms w + 100)
                      (math_sin (phase w) * 50 + 60)%float]) 200,
       {| generation_mode := "normal";
          current_time_ms := current_time_ms w + 100;
          phase := (phase w + 0.5)%float;
          random_state := random_state w;
          stdout := stdout w |}).
Proof.
  intros Hm. unfold get_data, generate_ecg_point, point. rewrite Hm. reflexivity.
Qed.

(** C5: in the abnormal mode one call of [/data] draws [u = random()].
    When [u < 0.1] (the spike, one draw in ten) the value is the rounded
    [random.uniform(130, 180)], that is [130 + 50 * v] for the next draw
    [v], which lies between 130 and 180 for every [v] of [[0, 1)], and the
    phase stays; otherwise the value is the rounded [sin(phase) * 40 + 65]
    and the phase becomes [phase + 0.45].  Either way exactly one point
    comes back and the simulated clock is 100 ms later. *)
Theorem get_data_abnormal `{Runtime} (c : clock) (w : world) :
  generation_mode w = "abnormal" ->
  let u := fst (random_random (random_state w)) in
  let g1 := snd (random_random (random_state w)) in
  let v := fst (random_random g1) in
  let g2 := snd (random_random g1) in
  ((u <? 0.1)%float = true /\
   fst (random_uniform 130 180 g1) = (130 + 50 * v)%float /\
   ((0 <=? v)%float = true -> (v <? 1)%float = true ->
    (130 <=? round (130 + 50 * v) 2)%float = true
    /\ (round (130 + 50 * v) 2 <=? 180)%float = true) /\
   get_data c w
     = (Response
          (JArr [point (current_time_ms w + 100) (130 + 50 * v)%float]) 200,
        {| generation_mode := "abnormal";
           current_time_ms := current_time_ms w + 100;
           phase := phase w;
           random_state := g2;
           stdout := stdout w |}))
  \/
  ((u <? 0.1)%float = false /\
   get_data c w
     = (Response
          (JArr [point (current_time_ms w + 100)
                       (math_sin (phase w) * 40 + 65)%float]) 200,
        {| generation_mode := "abnormal";
           current_time_ms := current_time_ms w + 100;
           phase := (phase w + 0.45)%float;
           random_state := g1;
           stdout := stdout w |})).
Proof.
  intros Hm u g1 v g2. subst u g1 v g2.
  unfold get_data, generate_ecg_point, random_uniform, point. rewrite Hm. simpl.
  destruct (random_random (random_state w)) as [u g1]. simpl.
  destruct (u <? 0.1)%float; [left | right].
  - destruct (random_random g1) as [v g2]. simpl.
    split; [reflexivity |]. split; [reflexivity |].
    split; [apply spike_value_range | reflexivity].
  - split; reflexivity.
Qed.

Lemma generate_ecg_point_clock `{Runtime} (c : clock) (w : world) :
  current_time_ms (snd (generate_ecg_point c w)) = current_time_ms w + 100
  /\ generation_mode (snd (generate_ecg_point c w)) = generation_mode w
  /\ exists x, fst (generate_ecg_point c w) = point (current_time_ms w + 100) x.
Proof.
  unfold generate_ecg_point, random_uniform, point.
  destruct (generation_mode w =? "normal")%string.
  - simpl. repeat split. eexists. reflexivity.
  - destruct (generation_mode w =? "abnormal")%string.
    + destruct (random_random (random_state w)) as [u g1].
      destruct (u <? 0.1)%float.
      * destruct (random_random g1) as [v g2]. simpl.
        repeat split. eexists. reflexivity.
      * simpl. repeat split. eexists. reflexivity.
    + simpl. repeat split. eexists. reflexivity.
Qed.

(** [round] always lands on a float that is rounded to the places asked. *)
Lemma round_rounded_to (x : float) (ndigits : nat) :
  Z.of_nat ndigits <= 323 -> rounded_to ndigits (round x ndigits).
Proof.
  intros Hn. unfold round.
  destruct (Prim2SF x) as [s | s | | s m e] eqn:E.
  - apply rounded_zero. rewrite <- (SF2Prim_Prim2SF x), E.
    destruct s; simpl; auto.
  - apply rounded_special. right. exists s. exact E.
  - apply rounded_special. left. exact E.
  - destruct (0 <=? e) eqn:He; simpl.
    + apply (rounded_integral _ _ s m e E). now apply Z.leb_le.
    + replace (323 <? Z.of_nat ndigits) with false
        by (symmetry; apply Z.ltb_ge; exact Hn).
      destruct (div_half_even _ _) as [| q | q].
      * apply rounded_zero. destruct s; auto.
      * now apply (rounded_decimal _ _ s q).
      * apply rounded_zero. destruct s; auto.
Qed.

(** C8: every point that [/data] returns has, as its [time], the ISO-8601
    UTC rendering of the simulated clock [current_time_ms] (milliseconds,
    as left by the call), whatever the wall clock reads, and, as its
    [value], a float rounded to two decimal places. *)
Theorem point_time_and_value `{Runtime} (c : clock) (w : world) :
  generation_mode w <> "stopped" ->
  exists x,
    fst (get_data c w)
      = Response
          (JArr [JObj [("time",
                        JStr (utc_isoformat
                                (float_of_int
                                   (current_time_ms (snd (get_data c w)))
                                 / 1000)%float));
                       ("value", JNum (round x 2))]]) 200
    /\ rounded_to 2 (round x 2).
Proof.
  intros Hm. unfold get_data.
  destruct (String.eqb_spec (generation_mode w) "stopped") as [E | _];
    [contradiction |].
  destruct (generate_ecg_point_clock c w) as (Ht & _ & x & Hx).
  destruct (generate_ecg_point c w) as [p w'] eqn:G. simpl in *.
  exists x. subst p. rewrite Ht. split.
  - reflexivity.
  - apply round_rounded_to. simpl. lia.
Qed.

(** C10: in the stopped mode [/data] leaves the world as it is.  The
    [else] branch of [generate_ecg_point] would return a point of value
    [0.0] and move the simulated clock by 100 ms, but [get_data] answers
    before calling it. *)
Theorem get_data_stopped_unchanged `{Runtime} (c : clock) (w : world) :
  generation_mode w = "stopped" ->
  snd (get_data c w) = w /\
  generate_ecg_point c w
    = (JObj [("time",
              JStr (utc_isoformat
                      (float_of_int (current_time_ms w + 100) / 1000)%float));
             ("value", JNum 0%float)],
       {| generation_mode := "stopped";
          current_time_ms := current_time_ms w + 100;
          phase := phase w;
          random_state := random_state w;
          stdout := stdout w |}) /\
  snd (generate_ecg_point c w) <> w.
Proof.
  intros Hm. split; [| split].
  - unfold get_data. rewrite Hm. reflexivity.
  - unfold generate_ecg_point. rewrite Hm. reflexivity.
  - intros Heq. apply (f_equal current_time_ms) in Heq.
    rewrite (proj1 (generate_ecg_point_clock c w)) in Heq. lia.
Qed.

(** *** Restarting *)

Lemma set_mode_valid_world `{Runtime} (c : clock) (m : string) (w : world) :
  contains m valid_modes = true ->
  snd (set_mode c m w)
  = let reset := (generation_mode w =? "stopped")%string
                 && negb (m =? "stopped")%string in
    {| generation_mode := m;
       current_time_ms := if reset then time_ms c else current_time_ms w;
       phase := if reset then 0%float else phase w;
       random_state := random_state w;
       stdout := List.app (stdout w) ["Generation mode set to: " ++ m] |}.
Proof.
  intros E. unfold set_mode. rewrite E.
  destruct ((generation_mode w =? "stopped")%string
            && negb (m =? "stopped")%string); reflexivity.
Qed.

(** C7: from any world, [set_mode("normal")], [set_mode("stopped")],
    [set_mode("normal")] leaves the phase at [0.0] and the simulated clock
    at the wall clock read by the last call; the first point after it has
    the value [sin(0) * 50 + 60 = 60.0], whatever the phase was before
    ([math.sin(0.0)] is [0.0]). *)
Theorem restart_resets_phase_and_clock `{Runtime}
  (c1 c2 c3 c4 : clock) (w : world) :
  math_sin 0 = 0%float ->
  let w3 := snd (set_mode c3 "normal"
              (snd (set_mode c2 "stopped" (snd (set_mode c1 "normal" w))))) in
  generation_mode w3 = "normal" /\
  phase w3 = 0%float /\
  current_time_ms w3 = time_ms c3 /\
  fst (get_data c4 w3)
    = Response
        (JArr [JObj [("time",
                      JStr (utc_isoformat
                              (float_of_int (time_ms c3 + 100) / 1000)%float));
                     ("value", JNum 60%float)]]) 200.
Proof.
  intros Hsin w3.
  set (w1 := snd (set_mode c1 "normal" w)) in *.
  set (w2 := snd (set_mode c2 "stopped" w1)) in *.
  assert (H2 : generation_mode w2 = "stopped").
  { subst w2. rewrite set_mode_valid_world by reflexivity. reflexivity. }
  assert (E3 : w3 = {| generation_mode := "normal";
                       current_time_ms := time_ms c3;
                       phase := 0%float;
                       random_state := random_state w2;
                       stdout := List.app (stdout w2)
                                   ["Generation mode set to: normal"] |}).
  { subst w3. rewrite set_mode_valid_world by reflexivity.
    rewrite H2. reflexivity. }
  clearbody w3 w2. subst w3.
  unfold get_data, generate_ecg_point. cbn.
  rewrite Hsin. repeat split.
Qed.

(** *** The simulated clock along a run *)

Lemma serve_clock `{Runtime} (c : clock) (q : request) (w : world) :
  (restarts q w = true ->
     emits_point (fst (serve c q w)) = false /\
     current_time_ms (snd (serve c q w)) = time_ms c) /\
  (restarts q w = false ->
     current_time_ms (snd (serve c q w))
     = if emits_point (fst (serve c q w))
       then current_time_ms w + 100 else current_time_ms w).
Proof.
  destruct q as [| mode |]; unfold restarts, serve.
  - split; [discriminate | reflexivity].
  - unfold set_mode.
    destruct (contains mode valid_modes);
      destruct (generation_mode w =? "stopped")%string;
      destruct (mode =? "stopped")%string; simpl;
      split; intros; try discriminate; auto.
  - split; [discriminate | intros _].
    unfold get_data. destruct (generation_mode w =? "stopped")%string.
    + reflexivity.
    + destruct (generate_ecg_point_clock c w) as (Ht & _ & x & Hx).
      destruct (generate_ecg_point c w) as [p w']. simpl in *.
      subst p. exact Ht.
Qed.

(** Only [set_mode] writes [generation_mode], and only with a name of the
    allow-list: every world of a run from a valid mode has a valid mode, so
    the [else] of [generate_ecg_point] can only mean [stopped]. *)
Lemma serve_mode_valid `{Runtime} (c : clock) (q : request) (w : world) :
  In (generation_mode w) valid_modes ->
  In (generation_mode (snd (serve c q w))) valid_modes.
Proof.
  intros Hw. destruct q as [| mode |]; unfold serve.
  - exact Hw.
  - unfold set_mode. destruct (contains mode valid_modes) eqn:E.
    + apply contains_In in E.
      destruct ((generation_mode w =? "stopped")%string
                && negb (mode =? "stopped")%string); exact E.
    + exact Hw.
  - unfold get_data. destruct (generation_mode w =? "stopped")%string.
    + exact Hw.
    + destruct (generate_ecg_point_clock c w) as (_ & Hg & _).
      destruct (generate_ecg_point c w) as [p w']. simpl in *.
      rewrite Hg. exact Hw.
Qed.

Lemma run_modes_valid `{Runtime} (reqs : list (clock * request)) (w : world) :
  In (generation_mode w) valid_modes ->
  Forall (fun w' => In (generation_mode w') valid_modes) (run reqs w).
Proof.
  revert w. induction reqs as [| [c q] rest IH]; intros w Hw; simpl.
  - constructor.
  - constructor.
    + now apply serve_mode_valid.
    + apply IH. now apply serve_mode_valid.
Qed.

Lemma run_from_init_modes_valid `{Runtime} (c0 : clock) (g : rng)
  (reqs : list (clock * request)) :
  Forall (fun w' => In (generation_mode w') valid_modes)
    (run reqs (init c0 g)).
Proof.
  apply run_modes_valid. simpl. auto.
Qed.

Lemma nondecreasing_cons (a b : Z) (l : list Z) :
  nondecreasing (a :: b :: l) = (a <=? b) && nondecreasing (b :: l).
Proof. reflexivity. Qed.

Lemma timestamps_cons `{Runtime} (c : clock) (q : request)
  (rest : list (clock * request)) (w : world) :
  timestamps ((c, q) :: rest) w
  = current_time_ms w :: timestamps rest (snd (serve c q w)).
Proof. reflexivity. Qed.

(** C6 (as amended): in every run each point moves the simulated clock by
    exactly 100 ms, whatever the wall clock reads; and along every run in
    which no restart out of the stopped mode reads a wall clock behind the
    simulated clock, the simulated clock never decreases. *)
Theorem timestamps_nondecreasing_between_restarts `{Runtime}
  (reqs : list (clock * request)) (w : world) :
  points_advance_100 reqs w = true /\
  (restarts_not_behind reqs w = true ->
   nondecreasing (timestamps reqs w) = true).
Proof.
  revert w. induction reqs as [| [c q] rest IH]; intros w.
  - split; reflexivity.
  - destruct (IH (snd (serve c q w))) as [IHp IHn].
    destruct (serve_clock c q w) as [Hyes Hno].
    split.
    + simpl. destruct (serve c q w) as [r w'] eqn:S. simpl in *.
      rewrite IHp, andb_true_r. destruct (restarts q w).
      * rewrite (proj1 (Hyes eq_refl)). reflexivity.
      * rewrite (Hno eq_refl).
        destruct (emits_point r); [apply Z.eqb_refl | reflexivity].
    + intros Hr. simpl in Hr. apply andb_true_iff in Hr.
      destruct Hr as [Hq Hrest].
      rewrite timestamps_cons. unfold timestamps at 1.
      rewrite nondecreasing_cons. fold (timestamps rest (snd (serve c q w))).
      rewrite (IHn Hrest), andb_true_r.
      apply Z.leb_le. destruct (restarts q w).
      * rewrite (proj2 (Hyes eq_refl)). now apply Z.leb_le.
      * rewrite (Hno eq_refl). destruct (emits_point _); lia.
Qed.

(** ** Sessions *)

Lemma generate_ecg_point_stdout `{Runtime} (c : clock) (w : world) :
  stdout (snd (generate_ecg_point c w)) = stdout w.
Proof.
  unfold generate_ecg_point, random_uniform.
  destruct (generation_mode w =? "normal")%string; [reflexivity |].
  destruct (generation_mode w =? "abnormal")%string; [| reflexivity].
  destruct (random_random (random_state w)) as [u g1].
  destruct (u <? 0.1)%float; [| reflexivity].
  destruct (random_random g1) as [v g2]. reflexivity.
Qed.

(** X1: from import on, whatever requests arrive, [generation_mode] is one
    of the three names of [valid_modes]: only [set_mode] writes it, and
    only after the membership test. *)
Theorem generation_mode_always_valid `{Runtime} (c0 : clock) (g : rng)
  (reqs : list (clock * request)) :
  Forall (fun w => In (generation_mode w) ["normal"; "abnormal"; "stopped"])
    (init c0 g :: run reqs (init c0 g)).
Proof.
  constructor.
  - simpl. auto.
  - apply run_modes_valid. simpl. auto.
Qed.

Lemma get_data_running `{Runtime} (c : clock) (w : world) :
  generation_mode w <> "stopped" ->
  emits_point (fst (get_data c w)) = true
  /\ current_time_ms (snd (get_data c w)) = current_time_ms w + 100
  /\ generation_mode (snd (get_data c w)) = generation_mode w.
Proof.
  intros Hm. unfold get_data.
  destruct (String.eqb_spec (generation_mode w) "stopped") as [E | _];
    [contradiction |].
  destruct (generate_ecg_point_clock c w) as (Ht & Hg & _).
  destruct (generate_ecg_point c w) as [p w']. simpl in *. auto.
Qed.

(** X2: while generation runs, [n] polls of [/data] return [n] points and
    move the simulated clock in steps of exactly 100 ms, from [t] to
    [t + 100 n], at whatever wall-clock times the polls arrive; the mode
    is left as it was. *)
Theorem polls_advance_clock `{Runtime} (cs : list clock) (w : world) :
  generation_mode w <> "stopped" ->
  timestamps (polls cs) w
    = map (fun k => current_time_ms w + 100 * Z.of_nat k)
        (seq 0 (S (length cs)))
  /\ forallb emits_point (replies (polls cs) w) = true
  /\ generation_mode (final (polls cs) w) = generation_mode w.
Proof.
  revert w. induction cs as [| c cs IH]; intros w Hm.
  - unfold timestamps. simpl. rewrite Z.add_0_r. auto.
  - destruct (get_data_running c w Hm) as (He & Ht & Hg).
    assert (Hm' : generation_mode (snd (get_data c w)) <> "stopped")
      by (rewrite Hg; exact Hm).
    destruct (IH _ Hm') as (IHt & IHe & IHf).
    split; [| split].
    + change (polls (c :: cs)) with ((c, GET_data) :: polls cs).
      rewrite timestamps_cons. change (serve c GET_data w) with (get_data c w).
      rewrite IHt, Ht.
      change (seq 0 (S (length (c :: cs))))
        with (0%nat :: seq 1 (S (length cs))).
      rewrite <- seq_shift, map_cons, map_map. f_equal; [simpl; lia |].
      apply map_ext. intros k. lia.
    + simpl. change (serve c GET_data w) with (get_data c w).
      rewrite He. exact IHe.
    + simpl. change (serve c GET_data w) with (get_data c w).
      rewrite IHf. exact Hg.
Qed.

Lemma serve_stdout `{Runtime} (c : clock) (q : request) (w : world) :
  stdout (snd (serve c q w)) = List.app (stdout w) (mode_line q).
Proof.
  destruct q as [| mode |]; unfold serve, mode_line.
  - simpl. now rewrite app_nil_r.
  - unfold set_mode. destruct (contains mode valid_modes).
    + destruct ((generation_mode w =? "stopped")%string
                && negb (mode =? "stopped")%string); reflexivity.
    + simpl. now rewrite app_nil_r.
  - rewrite app_nil_r. unfold get_data.
    destruct (generation_mode w =? "stopped")%string; [reflexivity |].
    pose proof (generate_ecg_point_stdout c w) as Hs.
    destruct (generate_ecg_point c w) as [p w']. exact Hs.
Qed.

(** X3: the output of the server is the log of the accepted mode changes:
    after any run, what was printed is one line
    ["Generation mode set to: <mode>"] for each [set_mode] request that
    named a valid mode, in the order of the requests; rejected requests,
    [/status] and [/data] print nothing. *)
Theorem stdout_is_mode_log `{Runtime} (reqs : list (clock * request))
  (w : world) :
  stdout (final reqs w) = List.app (stdout w) (mode_log reqs).
Proof.
  revert w. induction reqs as [| [c q] rest IH]; intros w.
  - simpl. now rewrite app_nil_r.
  - change (final ((c, q) :: rest) w) with (final rest (snd (serve c q w))).
    rewrite IH, serve_stdout.
    change (mode_log ((c, q) :: rest))
      with (List.app (mode_line q) (mode_log rest)).
    now rewrite app_assoc.
Qed.

(** X4: asking twice for the same mode is asking once: the second call of
    [set_mode] changes neither the mode, the simulated clock, the phase
    nor the generator, so a repeated "normal" never restarts the signal. *)
Theorem set_mode_twice `{Runtime} (c c' : clock) (m : string) (w : world) :
  globals (snd (set_mode c' m (snd (set_mode c m w))))
  = globals (snd (set_mode c m w)).
Proof.
  destruct (contains m valid_modes) eqn:E.
  - rewrite !set_mode_valid_world by exact E.
    unfold globals. cbv zeta.
    cbn [generation_mode current_time_ms phase random_state].
    destruct (m =? "stopped")%string; reflexivity.
  - unfold set_mode. rewrite E. reflexivity.
Qed.

Lemma serve_globals `{Runtime} (c : clock) (q : request) (w w' : world) :
  globals w = globals w' ->
  fst (serve c q w) = fst (serve c q w')
  /\ globals (snd (serve c q w)) = globals (snd (serve c q w')).
Proof.
  destruct w as [m t p g out], w' as [m' t' p' g' out'].
  unfold globals. cbn [generation_mode current_time_ms phase random_state].
  intros E. injection E as -> -> -> ->.
  destruct q as [| mode |]; unfold serve.
  - split; reflexivity.
  - unfold set_mode.
    cbn [generation_mode current_time_ms phase random_state stdout].
    destruct (contains mode valid_modes).
    + destruct ((m' =? "stopped")%string && negb (mode =? "stopped")%string);
        split; reflexivity.
    + split; reflexivity.
  - unfold get_data, generate_ecg_point, random_uniform.
    cbn [generation_mode current_time_ms phase random_state stdout].
    destruct (m' =? "stopped")%string; [split; reflexivity |].
    destruct (m' =? "normal")%string; [split; reflexivity |].
    destruct (m' =? "abnormal")%string; [| split; reflexivity].
    destruct (random_random g') as [u g1].
    destruct (u <? 0.1)%float; [| split; reflexivity].
    destruct (random_random g1) as [v g2]. split; reflexivity.
Qed.

Lemma replies_globals `{Runtime} (reqs : list (clock * request))
  (w w' : world) :
  globals w = globals w' -> replies reqs w = replies reqs w'.
Proof.
  revert w w'. induction reqs as [| [c q] rest IH]; intros w w' E.
  - reflexivity.
  - destruct (serve_globals c q w w' E) as [Hr Hg].
    simpl. rewrite Hr. f_equal. now apply IH.
Qed.

(** X5: a restart forgets the past: starting generation from two stopped
    worlds at the same reading of the wall clock, with the same generator
    state, gives the same responses to every later sequence of requests,
    whatever clock and phase the two worlds had reached before. *)
Theorem restart_forgets_history `{Runtime} (c : clock) (m : string)
  (w w' : world) (reqs : list (clock * request)) :
  generation_mode w = "stopped" -> generation_mode w' = "stopped" ->
  random_state w = random_state w' ->
  m = "normal" \/ m = "abnormal" ->
  replies reqs (snd (set_mode c m w)) = replies reqs (snd (set_mode c m w')).
Proof.
  intros Hw Hw' Hg Hm. apply replies_globals.
  rewrite !set_mode_valid_world
    by (destruct Hm; subst m; reflexivity).
  unfold globals. cbv zeta. cbn [generation_mode current_time_ms phase random_state].
  rewrite Hw, Hw', Hg.
  destruct Hm; subst m; reflexivity.
Qed.

(** ** The phase accumulator *)

(** Rounding of an exact positive value, with the overflow to infinity. *)
Lemma binary_round_aux_exact_total (mx : positive) (ex : Z) :
  let e1 := fexp prec emax (Z.pos (digits2_pos mx) + ex) in
  let k := e1 - ex in
  0 <= k ->
  exists mr : Z,
    Z.pos mx / 2 ^ k <= mr <= Z.pos mx / 2 ^ k + 1 /\
    (Z.pos mx mod 2 ^ k = 0 -> mr = Z.pos mx / 2 ^ k) /\
    rounds_into mr e1 (binary_round_aux prec emax false (Z.pos mx) ex loc_Exact).
Proof.
  intros e1 k Hk.
  assert (Hemin : -1074 <= e1) by (subst e1; rewrite fexp_eq; lia).
  assert (Hkd : Z.pos (digits2_pos mx) - 53 <= k)
    by (subst k e1; rewrite fexp_eq; lia).
  destruct (shr_fexp_first mx ex Hk) as (mrs & Hshr & Hinv). fold e1 in Hshr.
  destruct Hinv as (_ & Hm & Hx).
  change (shr_m mrs = Z.pos mx / 2 ^ k) in Hm.
  change (Z.pos mx mod 2 ^ k = 0 -> shr_r mrs = false /\ shr_s mrs = false) in Hx.
  pose proof (round_nearest_even_faithful mrs) as Hrne. simpl in Hrne.
  set (mr := round_nearest_even (shr_m mrs) (loc_of_shr_record mrs)) in *.
  destruct Hrne as [Hb Hexact].
  assert (Hpk : 0 < 2 ^ k) by (apply Z.pow_pos_nonneg; lia).
  assert (Hlt : Z.pos mx / 2 ^ k < 2 ^ 53).
  { apply Z.div_lt_upper_bound; [exact Hpk |].
    rewrite <- Z.pow_add_r by lia.
    apply Z.lt_le_trans with (2 ^ Z.pos (digits2_pos mx)).
    - apply digits2_pos_bounds.
    - apply Z.pow_le_mono_r; lia. }
  assert (H0 : 0 <= Z.pos mx / 2 ^ k) by (apply Z.div_pos; lia).
  exists mr. rewrite <- Hm. split; [exact Hb |]. split.
  - intros Hz. apply Hexact. now apply Hx.
  - unfold binary_round_aux. rewrite Hshr. fold mr.
    destruct mr as [| p | p] eqn:Emr; [| | lia].
    + rewrite shr_fexp_zero by exact Hemin. simpl.
      constructor. reflexivity.
    + destruct (Z.eq_dec (Z.pos p) (2 ^ 53)) as [E53 | N53].
      * assert (Ep : p = 9007199254740992%positive) by (apply Pos2Z.inj; exact E53).
        subst p. rewrite shr_fexp_carry by exact Hemin. simpl.
        destruct (Z.leb_spec (e1 + 1) 971).
        -- apply rounds_into_carry; [reflexivity | assumption].
        -- apply rounds_into_infinity; [lia | right; split; [reflexivity | lia]].
      * assert (Hp53 : Z.pos p < 2 ^ 53) by lia.
        rewrite shr_fexp_small by assumption. simpl.
        destruct (Z.leb_spec e1 971).
        -- apply rounds_into_finite; [reflexivity | exact Hp53 | assumption].
        -- apply rounds_into_infinity; [lia | left; lia].
Qed.

(** A float above the smallest exponent has a full mantissa. *)
Lemma valid_binary_normal (s : bool) (m : positive) (e : Z) :
  valid_binary (S754_finite s m e) = true ->
  -1074 < e -> Z.pos (digits2_pos m) = 53.
Proof.
  unfold SpecFloat.valid_binary, bounded, canonical_mantissa. intros H He.
  apply andb_true_iff in H. destruct H as [H _].
  apply Z.eqb_eq in H. rewrite fexp_eq in H. lia.
Qed.

Lemma shl_align_value (m : positive) (e ez : Z) :
  ez <= e ->
  Z.pos (fst (shl_align m e ez)) = Z.pos m * 2 ^ (e - ez).
Proof.
  intros He. unfold shl_align.
  destruct (ez - e) as [| d | d] eqn:Ed.
  - replace (e - ez) with 0 by lia. simpl. lia.
  - lia.
  - simpl. rewrite iter_xO. replace (e - ez) with (Z.pos d) by lia. reflexivity.
Qed.

Lemma pos_ge_pow52 (m : positive) :
  Z.pos (digits2_pos m) = 53 -> 2 ^ 52 <= Z.pos m.
Proof.
  intros Hd. pose proof (digits2_pos_bounds m) as [Hl _].
  rewrite Hd in Hl. exact Hl.
Qed.

Lemma digits_ge_53 (m : positive) :
  2 ^ 52 <= Z.pos m -> 53 <= Z.pos (digits2_pos m).
Proof.
  intros Hm. pose proof (digits2_pos_bounds m) as [_ Hu].
  assert (H : 2 ^ 52 < 2 ^ Z.pos (digits2_pos m)) by lia.
  apply pow2_lt_exp in H; lia.
Qed.

(** The sum of two positive finite floats is not below the first. *)
Lemma SFadd_pos_ge (mx my : positive) (ex ey : Z) :
  valid_binary (S754_finite false mx ex) = true ->
  valid_binary (S754_finite false my ey) = true ->
  SFleb (S754_finite false mx ex)
    (SFadd prec emax (S754_finite false mx ex) (S754_finite false my ey)) = true
  /\ SFleb (S754_zero false)
       (SFadd prec emax (S754_finite false mx ex) (S754_finite false my ey)) = true.
Proof.
  intros Vx Vy.
  destruct (valid_binary_finite _ _ _ Vx) as [Hdx Hex].
  destruct (valid_binary_finite _ _ _ Vy) as [Hdy Hey].
  unfold SFadd, cond_Zopp. cbv zeta.
  set (ez := Z.min ex ey).
  pose proof (shl_align_value mx ex ez ltac:(subst ez; lia)) as Ha.
  pose proof (shl_align_value my ey ez ltac:(subst ez; lia)) as Hb.
  set (a := fst (shl_align mx ex ez)) in *.
  set (b := fst (shl_align my ey ez)) in *.
  rewrite <- Pos2Z.inj_add. unfold binary_normalize.
  set (S := (a + b)%positive).
  assert (HS : Z.pos S = Z.pos mx * 2 ^ (ex - ez) + Z.pos my * 2 ^ (ey - ez))
    by (subst S; rewrite Pos2Z.inj_add, Ha, Hb; reflexivity).
  assert (Hpx : 0 < 2 ^ (ex - ez)) by (apply Z.pow_pos_nonneg; subst ez; lia).
  assert (Hpy : 0 < 2 ^ (ey - ez)) by (apply Z.pow_pos_nonneg; subst ez; lia).
  set (d := Z.pos (digits2_pos S)).
  assert (Hez : ez <= fexp prec emax (d + ez)).
  { rewrite fexp_eq.
    destruct (Z.eq_dec ez (-1074)) as [E | N]; [lia |].
    assert (2 ^ 52 <= Z.pos S).
    { destruct (Z.le_ge_cases ex ey) as [L | G].
      - assert (Ez : ez = ex) by (subst ez; lia).
        pose proof (pos_ge_pow52 mx (valid_binary_normal _ _ _ Vx ltac:(lia))).
        rewrite Ez, Z.sub_diag in HS. simpl (2 ^ 0) in HS. nia.
      - assert (Ez : ez = ey) by (subst ez; lia).
        pose proof (pos_ge_pow52 my (valid_binary_normal _ _ _ Vy ltac:(lia))).
        rewrite Ez, Z.sub_diag in HS. simpl (2 ^ 0) in HS. nia. }
    pose proof (digits_ge_53 S H). fold d in H0. lia. }
  rewrite binary_round_no_shl by exact Hez.
  destruct (binary_round_aux_exact_total S ez ltac:(fold d; lia))
    as (mr & Hbd & _ & Hres).
  fold d in Hbd, Hres.
  set (e1 := fexp prec emax (d + ez)) in *.
  set (k := e1 - ez) in *.
  assert (Hk : 0 <= k) by (subst k; lia).
  assert (Hpk : 0 < 2 ^ k) by (apply Z.pow_pos_nonneg; lia).
  assert (Hkd : k <= d - 1).
  { pose proof (Pos2Z.is_pos (digits2_pos S)) as Hd1. fold d in Hd1.
    subst k e1. rewrite fexp_eq. subst ez. lia. }
  assert (Hmr : 0 < mr).
  { assert (1 <= Z.pos S / 2 ^ k); [| lia].
    apply Z.div_le_lower_bound; [exact Hpk |].
    rewrite Z.mul_1_r.
    pose proof (digits2_pos_bounds S) as [Hl _]. fold d in Hl.
    apply Z.le_trans with (2 ^ (d - 1)); [| exact Hl].
    apply Z.pow_le_mono_r; lia. }
  assert (Hlow : forall j, 0 <= j -> e1 + j <= ex -> 2 ^ j * Z.pos mx <= mr).
  { intros j Hj Hje.
    apply (faithful_lower (Z.pos S) (2 ^ k) mr); [exact Hpk | lia |].
    rewrite <- Z.mul_assoc, (Z.mul_comm (Z.pos mx)), Z.mul_assoc.
    rewrite <- Z.pow_add_r by lia.
    assert (Hle : 2 ^ (j + k) <= 2 ^ (ex - ez))
      by (apply Z.pow_le_mono_r; subst k; lia).
    assert (0 < 2 ^ (j + k)) by (apply Z.pow_pos_nonneg; lia).
    nia. }
  assert (He1 : -1074 <= e1) by (subst e1; rewrite fexp_eq; lia).
  set (r := binary_round_aux prec emax false (Z.pos S) ez loc_Exact) in *.
  clearbody r. destruct Hres as [Hz | p Hp Hlt He | Hc He | Hinf _].
  - lia.
  - split; [| reflexivity]. apply SFleb_finite.
    destruct (Z.lt_trichotomy ex e1) as [L | [E | G]].
    + left. exact L.
    + right. split; [exact E |]. rewrite <- Hp.
      pose proof (Hlow 0 ltac:(lia) ltac:(lia)) as H0. simpl (2 ^ 0) in H0. lia.
    + exfalso.
      pose proof (Hlow 1 ltac:(lia) ltac:(lia)) as H1. simpl (2 ^ 1) in H1.
      pose proof (pos_ge_pow52 mx (valid_binary_normal _ _ _ Vx ltac:(lia))) as Hn.
      change (2 ^ 53) with (2 * 2 ^ 52) in Hlt. lia.
  - split; [| reflexivity]. apply SFleb_finite.
    destruct (Z.lt_trichotomy ex (e1 + 1)) as [L | [E | G]].
    + left. exact L.
    + right. split; [exact E |].
      pose proof (Hlow 1 ltac:(lia) ltac:(lia)) as H1. simpl (2 ^ 1) in H1.
      change (2 ^ 53) with (2 * 4503599627370496) in Hc. lia.
    + exfalso.
      pose proof (Hlow 2 ltac:(lia) ltac:(lia)) as H2. simpl (2 ^ 2) in H2.
      pose proof (pos_ge_pow52 mx (valid_binary_normal _ _ _ Vx ltac:(lia))) as Hn.
      change (2 ^ 53) with (2 * 2 ^ 52) in Hc. lia.
  - split; reflexivity.
Qed.

Lemma SFleb_finite_refl (m : positive) (e : Z) :
  SFleb (S754_finite false m e) (S754_finite false m e) = true.
Proof. apply SFleb_finite. right. split; [reflexivity | lia]. Qed.

(** Adding a non-negative float never gives less, nor a negative float or
    a NaN. *)
Lemma float_add_nonneg (x y : float) :
  (0 <=? x)%float = true -> (0 <=? y)%float = true ->
  (x <=? x + y)%float = true /\ (0 <=? x + y)%float = true.
Proof.
  rewrite !leb_spec, add_spec.
  change (Prim2SF 0) with (S754_zero false).
  pose proof (Prim2SF_valid x) as Vx. pose proof (Prim2SF_valid y) as Vy.
  destruct (Prim2SF x) as [sx | sx | | sx mx ex];
    destruct (Prim2SF y) as [sy | sy | | sy my ey];
    intros Hx Hy;
    try discriminate;
    try (destruct sx; try discriminate);
    try (destruct sy; try discriminate);
    try (split; reflexivity).
  - split; [apply SFleb_finite_refl | reflexivity].
  - split; [apply SFleb_finite_refl | reflexivity].
  - now apply SFadd_pos_ge.
Qed.

Lemma float_leb_refl (x : float) :
  (0 <=? x)%float = true -> (x <=? x)%float = true.
Proof.
  rewrite !leb_spec. change (Prim2SF 0) with (S754_zero false).
  destruct (Prim2SF x) as [s | s | | s m e]; intros Hx;
    try discriminate; try (destruct s; try discriminate; reflexivity).
  destruct s; [discriminate |]. apply SFleb_finite_refl.
Qed.

Lemma serve_phase `{Runtime} (c : clock) (q : request) (w : world) :
  (0 <=? phase w)%float = true ->
  (0 <=? phase (snd (serve c q w)))%float = true /\
  (restarts q w = false ->
   (phase w <=? phase (snd (serve c q w)))%float = true).
Proof.
  intros Hp. pose proof (float_leb_refl _ Hp) as Hrefl.
  destruct q as [| mode |]; unfold serve, restarts.
  - split; [exact Hp | intros _; exact Hrefl].
  - unfold set_mode. destruct (contains mode valid_modes).
    + destruct (generation_mode w =? "stopped")%string;
        destruct (mode =? "stopped")%string; cbn [snd phase andb negb];
        (split; [exact Hp || reflexivity | (intros _; exact Hrefl) || discriminate]).
    + split; [exact Hp | intros _; exact Hrefl].
  - unfold get_data.
    destruct (generation_mode w =? "stopped")%string;
      [split; [exact Hp | intros _; exact Hrefl] |].
    unfold generate_ecg_point, random_uniform.
    destruct (generation_mode w =? "normal")%string.
    + cbn [snd phase].
      destruct (float_add_nonneg (phase w) 0.5 Hp eq_refl).
      split; [| intros _]; assumption.
    + destruct (generation_mode w =? "abnormal")%string.
      * destruct (random_random (random_state w)) as [u g1].
        destruct (u <? 0.1)%float.
        -- destruct (random_random g1) as [v g2]. cbn [snd phase].
           split; [exact Hp | intros _; exact Hrefl].
        -- cbn [snd phase].
           destruct (float_add_nonneg (phase w) 0.45 Hp eq_refl).
           split; [| intros _]; assumption.
      * cbn [snd phase]. split; [exact Hp | intros _; exact Hrefl].
Qed.

(** X6: a request never lowers the phase, except the [set_mode] that
    restarts generation from the stopped mode (it puts the phase back to
    [0.0]): in binary64, [phase + 0.5] and [phase + 0.45] are never below
    a non-negative [phase], also where the sum is rounded. *)
Theorem phase_never_decreases `{Runtime} (c : clock) (q : request)
  (w : world) :
  (0 <=? phase w)%float = true ->
  restarts q w = false ->
  (phase w <=? phase (snd (serve c q w)))%float = true.
Proof.
  intros Hp Hr. now apply (serve_phase c q w Hp).
Qed.

(** X7: from import on, whatever requests arrive, the phase is a
    non-negative float: never negative and never NaN. *)
Theorem phase_always_nonnegative `{Runtime} (c0 : clock) (g : rng)
  (reqs : list (clock * request)) :
  Forall (fun w => (0 <=? phase w)%float = true)
    (init c0 g :: run reqs (init c0 g)).
Proof.
  assert (Hrun : forall reqs w, (0 <=? phase w)%float = true ->
            Forall (fun w => (0 <=? phase w)%float = true) (run reqs w)).
  { clear reqs. induction reqs as [| [c q] rest IH]; intros w Hp; simpl.
    - constructor.
    - destruct (serve_phase c q w Hp) as [Hp' _].
      constructor; [exact Hp' | now apply IH]. }
  constructor; [reflexivity | apply Hrun; reflexivity].
Qed.

(** ** The command-line client *)

Lemma VALID_MODES_names (m : string) :
  contains m VALID_MODES = true <-> In m ["normal"; "abnormal"; "stopped"].
Proof. apply contains_In. Qed.


Lemma request_mode_returns (py_str : pyvalue -> string)
  (post : string -> outcome http_response) (target : string) :
  (exists line, request_mode py_str post target = Returns line) <->
  exists r, post target = Returns r
    /\ (status_code r < 400 \/ 600 <= status_code r)
    /\ (is_substring "application/json"
          match content_type r with Some h => h | None => "" end = true ->
        exists entries, json_value r = Returns (PDict entries)).
Proof.
  unfold request_mode, raise_for_status.
  destruct (post target) as [r | e].
  2: { split; [intros [l Hl]; discriminate Hl
              | intros (r & Hr & _); discriminate Hr]. }
  destruct ((400 <=? status_code r) && (status_code r <? 500)) eqn:C4.
  { apply andb_true_iff in C4. destruct C4 as [A B].
    apply Z.leb_le in A. apply Z.ltb_lt in B.
    split; [intros [l Hl]; discriminate Hl |].
    intros (r' & Hr & Hs & _). injection Hr as <-. lia. }
  destruct ((500 <=? status_code r) && (status_code r <? 600)) eqn:C5.
  { apply andb_true_iff in C5. destruct C5 as [A B].
    apply Z.leb_le in A. apply Z.ltb_lt in B.
    split; [intros [l Hl]; discriminate Hl |].
    intros (r' & Hr & Hs & _). injection Hr as <-. lia. }
  assert (Hs : status_code r < 400 \/ 600 <= status_code r).
  { apply andb_false_iff in C4, C5.
    rewrite Z.leb_gt, Z.ltb_ge in C4, C5. lia. }
  destruct (is_substring _ _) eqn:Hj.
  - destruct (json_value r) as [v | e] eqn:Hv.
    + destruct v as [| b | n | x | t | items | entries];
        try (split; [intros [l Hl]; discriminate Hl |];
             intros (r' & Hr & _ & Hd); injection Hr as <-;
             destruct (Hd Hj) as [d Hd']; rewrite Hv in Hd'; discriminate Hd').
      split; [| intros _; eexists; reflexivity].
      intros _. exists r. split; [reflexivity |]. split; [exact Hs |].
      intros _. exists entries. exact Hv.
    + split; [intros [l Hl]; discriminate Hl |].
      intros (r' & Hr & _ & Hd). injection Hr as <-.
      destruct (Hd Hj) as [d Hd']. rewrite Hv in Hd'. discriminate Hd'.
  - split; [| intros _; eexists; reflexivity].
    intros _. exists r. split; [reflexivity |]. split; [exact Hs |].
    intros Habs. rewrite Hj in Habs. discriminate Habs.
Qed.

(** X9: for a valid mode the client posts exactly once, to
    [BACKEND_URL/set_mode/<mode>], and its exit status tells whether that
    worked: it returns normally exactly when the backend answered with a
    status outside 400..599 and, if the answer is declared as JSON, the
    JSON decoded to an object; in every other case (no connection, an
    error status, an undecodable or non-object body) it exits with 1. *)
Theorem set_backend_mode_exit (py_str : pyvalue -> string)
  (post : string -> outcome http_response) (mode : string) :
  In mode ["normal"; "abnormal"; "stopped"] ->
  let target := BACKEND_URL ++ "/set_mode/" ++ mode in
  let result := set_backend_mode py_str post mode in
  posted result = [target] /\
  (exit_code result = None \/ exit_code result = Some 1) /\
  (exit_code result = None <->
   exists r, post target = Returns r
     /\ (status_code r < 400 \/ 600 <= status_code r)
     /\ (is_substring "application/json"
           match content_type r with Some h => h | None => "" end = true ->
         exists entries, json_value r = Returns (PDict entries))).
Proof.
  intros Hm target result. subst result.
  apply VALID_MODES_names in Hm.
  unfold set_backend_mode. rewrite Hm. cbn [negb]. fold target.
  rewrite <- (request_mode_returns py_str post target).
  destruct (request_mode py_str post target) as [line | e];
    cbn [posted exit_code].
  - split; [reflexivity |]. split; [left; reflexivity |].
    split; [intros _; exists line; reflexivity | reflexivity].
  - split; [reflexivity |]. split; [right; reflexivity |].
    split; [discriminate | intros [l Hl]; discriminate Hl].
Qed.

Lemma set_mode_accepts `{Runtime} (c : clock) (m : string) (w : world) :
  contains m valid_modes = true ->
  fst (set_mode c m w)
  = Response (JObj [("status", JStr "success"); ("new_mode", JStr m)]) 200.
Proof.
  intros E. unfold set_mode. rewrite E.
  destruct ((generation_mode w =? "stopped")%string
            && negb (m =? "stopped")%string); reflexivity.
Qed.

(** X10: the client and the server agree on the modes.  When the URL the
    client posts to is answered by the [set_mode] view of a backend, a
    valid mode always goes through: the server never answers 400, the
    client prints the success line with status 'success' and the new mode,
    returns normally, and the backend is in that mode afterwards. *)
Theorem client_sets_backend_mode `{Runtime} (py_str : pyvalue -> string)
  (post : string -> outcome http_response) (phrase : string)
  (c : clock) (w : world) (mode : string) :
  In mode ["normal"; "abnormal"; "stopped"] ->
  let target := BACKEND_URL ++ "/set_mode/" ++ mode in
  post target = Returns (flask_response target phrase (fst (set_mode c mode w))) ->
  status (fst (set_mode c mode w)) = 200 /\
  set_backend_mode py_str post mode
  = {| printed := ["Sending request to set mode to '" ++ mode ++ "' at "
                   ++ target ++ "...";
                   "Success: Backend responded with status 'success', "
                   ++ "new mode is '" ++ mode ++ "'"];
       posted := [target];
       exit_code := None |} /\
  generation_mode (snd (set_mode c mode w)) = mode.
Proof.
  intros Hm target Hpost.
  apply VALID_MODES_names in Hm.
  assert (Hv : contains mode valid_modes = true) by exact Hm.
  rewrite (set_mode_accepts c mode w Hv) in Hpost |- *.
  split; [reflexivity |]. split.
  - unfold set_backend_mode. rewrite Hm. cbn [negb]. fold target.
    unfold request_mode. rewrite Hpost. reflexivity.
  - rewrite (set_mode_valid_world c mode w Hv). reflexivity.
Qed.

(** ** The range of the values *)

Lemma binary_round_aux_sign (m e : Z) (l : location) :
  binary_round_aux prec emax true m e l
  = SFopp (binary_round_aux prec emax false m e l).
Proof.
  unfold binary_round_aux.
  destruct (shr_fexp prec emax m e l) as [mrs' e'].
  destruct (shr_fexp prec emax _ e' loc_Exact) as [mrs'' e''].
  destruct (shr_m mrs'') as [| p | p]; [reflexivity | | reflexivity].
  destruct (e'' <=? emax - prec); reflexivity.
Qed.

(** Rounding an exact positive value never passes a float above it. *)
Lemma round_le_bound (S mU : positive) (ez eU : Z) :
  valid_binary (S754_finite false mU eU) = true ->
  ez <= fexp prec emax (Z.pos (digits2_pos S) + ez) ->
  ez <= eU ->
  Z.pos S <= Z.pos mU * 2 ^ (eU - ez) ->
  SFleb (binary_round_aux prec emax false (Z.pos S) ez loc_Exact)
    (S754_finite false mU eU) = true.
Proof.
  intros VU Hk HeU HS.
  destruct (valid_binary_finite _ _ _ VU) as [HdU HeUm].
  pose proof (pos_lt_pow53 mU HdU) as HmU.
  assert (HeU971 : eU <= 971).
  { unfold SpecFloat.valid_binary, bounded in VU.
    apply andb_true_iff in VU. destruct VU as [_ B]. apply Z.leb_le in B.
    exact B. }
  set (d := Z.pos (digits2_pos S)) in *.
  assert (Hpu : 0 < 2 ^ (eU - ez)) by (apply Z.pow_pos_nonneg; lia).
  assert (Hd : d + ez <= 53 + eU).
  { pose proof (digits2_pos_bounds S) as [Hl _]. fold d in Hl.
    assert (H : 2 ^ (d - 1) < 2 ^ (53 + (eU - ez))).
    { rewrite Z.pow_add_r by lia. nia. }
    apply pow2_lt_exp in H; lia. }
  destruct (binary_round_aux_exact_total S ez ltac:(fold d; lia))
    as (mr & Hbd & Hx & Hres).
  fold d in Hbd, Hx, Hres.
  set (e1 := fexp prec emax (d + ez)) in *.
  assert (He1 : e1 <= eU) by (subst e1; rewrite fexp_eq; lia).
  set (k := e1 - ez) in *.
  assert (Hk0 : 0 <= k) by (subst k; lia).
  assert (Hpk : 0 < 2 ^ k) by (apply Z.pow_pos_nonneg; lia).
  assert (Hup : mr <= Z.pos mU * 2 ^ (eU - e1)).
  { apply (faithful_upper (Z.pos S) (2 ^ k) mr); try assumption.
    rewrite <- Z.mul_assoc, <- Z.pow_add_r by lia.
    replace (eU - e1 + k) with (eU - ez) by (subst k; lia). exact HS. }
  set (r := binary_round_aux prec emax false (Z.pos S) ez loc_Exact) in *.
  clearbody r. destruct Hres as [Hz | p Hp Hlt He | Hc He | Hinf Hwhy].
  - reflexivity.
  - apply SFleb_finite.
    destruct (Z.eq_dec e1 eU) as [E | N]; [right | left; lia].
    split; [exact E |]. rewrite <- Hp.
    replace (eU - e1) with 0 in Hup by lia. simpl (2 ^ 0) in Hup. lia.
  - assert (e1 < eU).
    { destruct (Z.eq_dec e1 eU) as [E | N]; [| lia].
      replace (eU - e1) with 0 in Hup by lia. simpl (2 ^ 0) in Hup. lia. }
    apply SFleb_finite.
    destruct (Z.eq_dec (e1 + 1) eU) as [E | N]; [right | left; lia].
    split; [exact E |].
    replace (eU - e1) with 1 in Hup by lia. simpl (2 ^ 1) in Hup.
    change (2 ^ 53) with (2 * 4503599627370496) in Hc. lia.
  - exfalso. destruct Hwhy as [Hbig | [Hc Hbig]]; [lia |].
    assert (e1 = eU) by lia.
    replace (eU - e1) with 0 in Hup by lia. simpl (2 ^ 0) in Hup. lia.
Qed.

(** Rounding an exact positive value never falls below a float under it. *)
Lemma round_ge_bound (S mL : positive) (ez eL : Z) :
  valid_binary (S754_finite false mL eL) = true ->
  ez <= fexp prec emax (Z.pos (digits2_pos S) + ez) ->
  -1074 <= ez ->
  (ez <= eL -> Z.pos mL * 2 ^ (eL - ez) <= Z.pos S) ->
  SFleb (S754_finite false mL eL)
    (binary_round_aux prec emax false (Z.pos S) ez loc_Exact) = true.
Proof.
  intros VL Hk Hez HS.
  destruct (valid_binary_finite _ _ _ VL) as [HdL HeLm].
  set (d := Z.pos (digits2_pos S)) in *.
  destruct (binary_round_aux_exact_total S ez ltac:(fold d; lia))
    as (mr & Hbd & _ & Hres).
  fold d in Hbd, Hres.
  set (e1 := fexp prec emax (d + ez)) in *.
  set (k := e1 - ez) in *.
  assert (Hk0 : 0 <= k) by (subst k; lia).
  assert (Hpk : 0 < 2 ^ k) by (apply Z.pow_pos_nonneg; lia).
  assert (Hkd : k <= d - 1).
  { pose proof (Pos2Z.is_pos (digits2_pos S)) as Hd1. fold d in Hd1.
    subst k e1. rewrite fexp_eq. lia. }
  assert (Hmr : 0 < mr).
  { assert (1 <= Z.pos S / 2 ^ k); [| lia].
    apply Z.div_le_lower_bound; [exact Hpk |].
    rewrite Z.mul_1_r.
    pose proof (digits2_pos_bounds S) as [Hl _]. fold d in Hl.
    apply Z.le_trans with (2 ^ (d - 1)); [| exact Hl].
    apply Z.pow_le_mono_r; lia. }
  assert (Hlow : forall j, 0 <= j -> e1 + j <= eL -> 2 ^ j * Z.pos mL <= mr).
  { intros j Hj Hje.
    assert (HeL : ez <= eL) by (subst k; lia).
    specialize (HS HeL).
    assert (Hpl : 0 < 2 ^ (eL - ez)) by (apply Z.pow_pos_nonneg; lia).
    apply (faithful_lower (Z.pos S) (2 ^ k) mr); [exact Hpk | lia |].
    rewrite <- Z.mul_assoc, (Z.mul_comm (Z.pos mL)), Z.mul_assoc.
    rewrite <- Z.pow_add_r by lia.
    assert (Hle : 2 ^ (j + k) <= 2 ^ (eL - ez))
      by (apply Z.pow_le_mono_r; subst k; lia).
    assert (0 < 2 ^ (j + k)) by (apply Z.pow_pos_nonneg; lia).
    nia. }
  set (r := binary_round_aux prec emax false (Z.pos S) ez loc_Exact) in *.
  clearbody r. destruct Hres as [Hz | p Hp Hlt He | Hc He | Hinf _].
  - lia.
  - apply SFleb_finite.
    destruct (Z.lt_trichotomy eL e1) as [L | [E | G]].
    + left. exact L.
    + right. split; [exact E |]. rewrite <- Hp.
      pose proof (Hlow 0 ltac:(lia) ltac:(lia)) as H0. simpl (2 ^ 0) in H0. lia.
    + exfalso.
      pose proof (Hlow 1 ltac:(lia) ltac:(lia)) as H1. simpl (2 ^ 1) in H1.
      assert (He1 : -1074 <= e1) by (subst e1; rewrite fexp_eq; lia).
      pose proof (pos_ge_pow52 mL (valid_binary_normal _ _ _ VL ltac:(lia))) as Hn.
      change (2 ^ 53) with (2 * 2 ^ 52) in Hlt. lia.
  - apply SFleb_finite.
    destruct (Z.lt_trichotomy eL (e1 + 1)) as [L | [E | G]].
    + left. exact L.
    + right. split; [exact E |].
      pose proof (Hlow 1 ltac:(lia) ltac:(lia)) as H1. simpl (2 ^ 1) in H1.
      change (2 ^ 53) with (2 * 4503599627370496) in Hc. lia.
    + exfalso.
      pose proof (Hlow 2 ltac:(lia) ltac:(lia)) as H2. simpl (2 ^ 2) in H2.
      assert (He1 : -1074 <= e1) by (subst e1; rewrite fexp_eq; lia).
      pose proof (pos_ge_pow52 mL (valid_binary_normal _ _ _ VL ltac:(lia))) as Hn.
      change (2 ^ 53) with (2 * 2 ^ 52) in Hc. lia.
  - reflexivity.
Qed.

(** [binary_round] is [binary_round_aux] on the same value, brought to an
    exponent from which nothing has to be shifted back in. *)
Lemma binary_round_spec (S : positive) (ez : Z) :
  -1074 <= ez ->
  exists (S' : positive) (j : Z),
    0 <= j /\ Z.pos S' = Z.pos S * 2 ^ j /\
    ez - j <= fexp prec emax (Z.pos (digits2_pos S') + (ez - j)) /\
    -1074 <= ez - j /\
    binary_round prec emax false S ez
    = binary_round_aux prec emax false (Z.pos S') (ez - j) loc_Exact.
Proof.
  intros Hez. unfold binary_round, shl_align.
  set (d := Z.pos (digits2_pos S)).
  destruct (fexp prec emax (d + ez) - ez) as [| q | q] eqn:Eq.
  - exists S, 0. rewrite Z.sub_0_r. fold d. simpl (2 ^ 0).
    repeat split; try lia. 
  - exists S, 0. rewrite Z.sub_0_r. fold d. simpl (2 ^ 0).
    repeat split; lia.
  - exists (Pos.iter xO S q), (Z.pos q).
    assert (Hfe : fexp prec emax (d + ez) = ez - Z.pos q) by lia.
    assert (Hv : Z.pos (Pos.iter xO S q) = Z.pos S * 2 ^ Z.pos q)
      by apply iter_xO.
    assert (Hd' : Z.pos (digits2_pos (Pos.iter xO S q)) = d + Z.pos q).
    { apply digits2_pos_unique. rewrite Hv.
      pose proof (digits2_pos_bounds S) as [Hl Hu]. fold d in Hl, Hu.
      assert (0 < 2 ^ Z.pos q) by (apply Z.pow_pos_nonneg; lia).
      pose proof (Pos2Z.is_pos (digits2_pos S)) as Hd1. fold d in Hd1.
      replace (d + Z.pos q - 1) with ((d - 1) + Z.pos q) by lia.
      rewrite !Z.pow_add_r by lia. nia. }
    split; [lia |]. split; [exact Hv |].
    rewrite Hd'. replace (d + Z.pos q + (ez - Z.pos q)) with (d + ez) by lia.
    split; [lia |]. split; [rewrite fexp_eq in Hfe; lia |].
    rewrite Hfe. reflexivity.
Qed.

Lemma Prim2SF_finite_valid (x : float) (m : positive) (e : Z) :
  Prim2SF x = S754_finite false m e ->
  valid_binary (S754_finite false m e) = true.
Proof. intros <-. apply Prim2SF_valid. Qed.

Lemma SFleb_finite_neg (m1 m2 : positive) (e1 e2 : Z) :
  SFleb (S754_finite true m1 e1) (S754_finite true m2 e2) = true
  <-> e2 < e1 \/ (e1 = e2 /\ Z.pos m2 <= Z.pos m1).
Proof.
  unfold SFleb, SFcompare.
  destruct (Z.compare_spec e1 e2) as [E | L | G].
  - change (Pos.compare_cont Eq m1 m2) with (Pos.compare m1 m2).
    destruct (Pos.compare_spec m1 m2) as [Em | Lm | Gm]; simpl;
      split; intros Hc; try discriminate; try reflexivity; lia.
  - split; [discriminate | lia].
  - split; [lia | reflexivity].
Qed.

(** The result of rounding an exact positive value is a zero, a positive
    finite float or the positive infinity. *)
Lemma binary_round_aux_shape (S : positive) (ez : Z) :
  ez <= fexp prec emax (Z.pos (digits2_pos S) + ez) ->
  let r := binary_round_aux prec emax false (Z.pos S) ez loc_Exact in
  r = S754_zero false \/ (exists p e, r = S754_finite false p e)
  \/ r = S754_infinity false.
Proof.
  intros Hk r.
  destruct (binary_round_aux_exact_total S ez ltac:(lia)) as (mr & _ & _ & Hres).
  fold r in Hres. clearbody r.
  destruct Hres; [left; reflexivity | right; left; eauto
                 | right; left; eauto | right; right; reflexivity].
Qed.

(** [s * A] for [s] in [[-1, 1]] and a positive [A]: a zero or a finite
    float whose magnitude is at most [A]. *)
Lemma mul_unit_magnitude (s A : float) (mA : positive) (eA : Z) :
  Prim2SF A = S754_finite false mA eA -> -1074 < eA ->
  (-1 <=? s)%float = true -> (s <=? 1)%float = true ->
  (exists sy, Prim2SF (s * A) = S754_zero sy)
  \/ (exists sy my ey,
        Prim2SF (s * A) = S754_finite sy my ey
        /\ SFleb (S754_finite false my ey) (S754_finite false mA eA) = true).
Proof.
  intros HA HeA. pose proof (Prim2SF_finite_valid A mA eA HA) as VA.
  rewrite !leb_spec, mul_spec, HA.
  change (Prim2SF (-1)) with (S754_finite true 4503599627370496 (-52)).
  change (Prim2SF 1) with (S754_finite false 4503599627370496 (-52)).
  pose proof (Prim2SF_valid s) as Vs.
  destruct (Prim2SF s) as [ss | ss | | ss ms es]; intros Hlo Hhi.
  - left. exists (xorb ss false). reflexivity.
  - destruct ss; discriminate.
  - discriminate.
  - assert (Hs : es < -52 \/ (es = -52 /\ Z.pos ms <= 4503599627370496)).
    { destruct ss.
      - apply SFleb_finite_neg in Hlo. lia.
      - apply SFleb_finite in Hhi. exact Hhi. }
    destruct (valid_binary_finite _ _ _ Vs) as [Hds Hes].
    pose proof (pos_lt_pow53 ms Hds) as Hms53.
    assert (Hms : Z.pos ms <= 2 ^ (- es)).
    { destruct Hs as [L | [E L]].
      - apply Z.lt_le_incl. apply Z.lt_le_trans with (2 ^ 53); [exact Hms53 |].
        apply Z.pow_le_mono_r; lia.
      - subst es. exact L. }
    pose proof (pos_ge_pow52 mA (valid_binary_normal _ _ _ VA HeA)) as HmA.
    unfold SF64mul, SFmul.
    set (S := (ms * mA)%positive).
    assert (HS : Z.pos S = Z.pos ms * Z.pos mA) by (subst S; lia).
    assert (Hk : es + eA <= fexp prec emax (Z.pos (digits2_pos S) + (es + eA))).
    { rewrite fexp_eq.
      assert (2 ^ 52 <= Z.pos S) by nia.
      pose proof (digits_ge_53 S H). lia. }
    assert (Hle : SFleb (binary_round_aux prec emax false (Z.pos S) (es + eA) loc_Exact)
                    (S754_finite false mA eA) = true).
    { apply round_le_bound; [exact VA | exact Hk | lia |].
      replace (eA - (es + eA)) with (- es) by lia.
      rewrite HS. nia. }
    pose proof (binary_round_aux_shape S (es + eA) Hk) as Hshape.
    cbv zeta in Hshape.
    replace (xorb ss false) with ss by (destruct ss; reflexivity).
    assert (Hsign : binary_round_aux prec emax ss (Z.pos S) (es + eA) loc_Exact
                    = if ss then SFopp (binary_round_aux prec emax false (Z.pos S) (es + eA) loc_Exact)
                      else binary_round_aux prec emax false (Z.pos S) (es + eA) loc_Exact).
    { destruct ss; [apply binary_round_aux_sign | reflexivity]. }
    rewrite Hsign.
    set (r := binary_round_aux prec emax false (Z.pos S) (es + eA) loc_Exact) in *.
    clearbody r.
    destruct Hshape as [Hz | [(p & e & Hf) | Hi]]; subst r.
    + left. destruct ss; eexists; reflexivity.
    + right. destruct ss; simpl; do 3 eexists; (split; [reflexivity | exact Hle]).
    + discriminate Hle.
Qed.

Lemma scaled_integer (n e e0 : Z) (m : positive) :
  e <= 0 -> e0 <= e -> Z.pos m = n * 2 ^ (- e) ->
  Z.pos m * 2 ^ (e - e0) = n * 2 ^ (- e0).
Proof.
  intros He He0 Hm. rewrite Hm, <- Z.mul_assoc, <- Z.pow_add_r by lia.
  f_equal. f_equal. lia.
Qed.

(** A larger integer has no smaller exponent. *)
Lemma integer_exponent_mono (n1 n2 e1 e2 : Z) (m1 m2 : positive) :
  valid_binary (S754_finite false m1 e1) = true ->
  valid_binary (S754_finite false m2 e2) = true ->
  -1074 < e1 <= 0 -> e2 <= 0 ->
  Z.pos m1 = n1 * 2 ^ (- e1) -> Z.pos m2 = n2 * 2 ^ (- e2) ->
  n1 <= n2 -> e1 <= e2.
Proof.
  intros V1 V2 He1 He2 H1 H2 Hn.
  destruct (Z.le_gt_cases e1 e2) as [L | G]; [exact L | exfalso].
  pose proof (pos_ge_pow52 m1 (valid_binary_normal _ _ _ V1 ltac:(lia))) as Hm1.
  destruct (valid_binary_finite _ _ _ V2) as [Hd2 _].
  pose proof (pos_lt_pow53 m2 Hd2) as Hm2.
  pose proof (scaled_integer n1 e1 e2 m1 ltac:(lia) ltac:(lia) H1) as Hs.
  assert (Hp : 2 <= 2 ^ (e1 - e2)).
  { change 2 with (2 ^ 1) at 1. apply Z.pow_le_mono_r; lia. }
  assert (Hq : 0 < 2 ^ (- e2)) by (apply Z.pow_pos_nonneg; lia).
  change (2 ^ 53) with (2 * 2 ^ 52) in Hm2. nia.
Qed.

(** [y + B] for a [y] of magnitude at most [A < B]: between [B - A] and
    [B + A], for integers [A] and [B]. *)
Lemma add_base_range (a b : Z) (y A B L U : float) :
  0 < a < b ->
  integer_float a A -> integer_float b B ->
  integer_float (b - a) L -> integer_float (b + a) U ->
  ((exists sy, Prim2SF y = S754_zero sy)
   \/ (exists sy my ey,
         Prim2SF y = S754_finite sy my ey
         /\ SFleb (S754_finite false my ey) (Prim2SF A) = true)) ->
  (L <=? y + B)%float = true /\ (y + B <=? U)%float = true.
Proof.
  intros Hab (mA & eA & HA & HeA & HmA) (mB & eB & HB & HeB & HmB)
    (mL & eL & HL & HeL & HmL) (mU & eU & HU & HeU & HmU) Hy.
  pose proof (Prim2SF_finite_valid A mA eA HA) as VA.
  pose proof (Prim2SF_finite_valid B mB eB HB) as VB.
  pose proof (Prim2SF_finite_valid L mL eL HL) as VL.
  pose proof (Prim2SF_finite_valid U mU eU HU) as VU.
  pose proof (integer_exponent_mono _ _ _ _ _ _ VL VB HeL ltac:(lia) HmL HmB ltac:(lia)) as HeLB.
  pose proof (integer_exponent_mono _ _ _ _ _ _ VB VU HeB ltac:(lia) HmB HmU ltac:(lia)) as HeBU.
  rewrite !leb_spec, add_spec, HB, HL, HU.
  pose proof (Prim2SF_valid y) as Vy.
  destruct Hy as [[sy Hy] | (sy & my & ey & Hy & Hmag)]; rewrite Hy in *.
  - (* y is a zero: the sum is B *)
    change (SF64add (S754_zero sy) (S754_finite false mB eB))
      with (S754_finite false mB eB).
    split; apply SFleb_finite.
    + destruct (Z.eq_dec eL eB) as [E | N]; [right | left; lia].
      split; [exact E |]. subst eL.
      assert (0 < 2 ^ (- eB)) by (apply Z.pow_pos_nonneg; lia). nia.
    + destruct (Z.eq_dec eB eU) as [E | N]; [right | left; lia].
      split; [exact E |]. subst eU.
      assert (0 < 2 ^ (- eB)) by (apply Z.pow_pos_nonneg; lia). nia.
  - rewrite HA in Hmag. apply SFleb_finite in Hmag.
    destruct (valid_binary_finite _ _ _ Vy) as [Hdy Hey].
    pose proof (pos_lt_pow53 my Hdy) as Hmy53.
    pose proof (pos_ge_pow52 mA (valid_binary_normal _ _ _ VA ltac:(lia))) as HmA52.
    unfold SF64add, SFadd. cbv zeta.
    set (ez := Z.min ey eB).
    assert (Hez : -1074 <= ez <= 0) by (subst ez; lia).
    pose proof (shl_align_value my ey ez ltac:(subst ez; lia)) as Hya.
    pose proof (shl_align_value mB eB ez ltac:(subst ez; lia)) as Hba.
    set (ya := fst (shl_align my ey ez)) in *.
    set (ba := fst (shl_align mB eB ez)) in *.
    set (W := 2 ^ (- ez)).
    assert (HW : 0 < W) by (apply Z.pow_pos_nonneg; lia).
    assert (Hba' : Z.pos ba = b * W).
    { rewrite Hba. apply scaled_integer; [lia | subst ez; lia | exact HmB]. }
    assert (Hya' : Z.pos ya <= a * W).
    { rewrite Hya.
      assert (HaW : Z.pos mA * 2 ^ (eA - ez) = a * W)
        by (apply scaled_integer; [lia | subst ez; lia | exact HmA]).
      rewrite <- HaW.
      destruct Hmag as [Lt | [E Le]].
      - assert (Hp : 2 * 2 ^ (ey - ez) <= 2 ^ (eA - ez)).
        { replace (eA - ez) with (1 + (eA - ey - 1) + (ey - ez)) by lia.
          rewrite !Z.pow_add_r by (subst ez; lia).
          assert (0 < 2 ^ (ey - ez)) by (apply Z.pow_pos_nonneg; subst ez; lia).
          assert (0 < 2 ^ (eA - ey - 1)) by (apply Z.pow_pos_nonneg; lia).
          change (2 ^ 1) with 2. nia. }
        assert (0 < 2 ^ (ey - ez)) by (apply Z.pow_pos_nonneg; subst ez; lia).
        change (2 ^ 53) with (2 * 2 ^ 52) in Hmy53. nia.
      - subst ey.
        assert (0 < 2 ^ (eA - ez)) by (apply Z.pow_pos_nonneg; subst ez; lia).
        nia. }
    assert (Hsum : exists S, cond_Zopp sy (Z.pos ya) + cond_Zopp false (Z.pos ba) = Z.pos S
                      /\ (b - a) * W <= Z.pos S <= (b + a) * W).
    { unfold cond_Zopp.
      destruct (if sy then - Z.pos ya else Z.pos ya) eqn:Esum0.
      all: destruct sy; try lia.
      all: try (destruct (Z.neg _ + Z.pos ba) as [| S | S] eqn:E; [nia | exists S; split; [reflexivity | nia] | nia]).
      all: try (destruct (Z.pos _ + Z.pos ba) as [| S | S] eqn:E; [nia | exists S; split; [reflexivity | nia] | nia]). }
    destruct Hsum as (S & HS & HSb). rewrite HS.
    unfold binary_normalize.
    destruct (binary_round_spec S ez ltac:(lia)) as (S' & j & Hj & HS' & Hk & He0 & Hbr).
    rewrite Hbr.
    set (e0 := ez - j) in *.
    assert (HW' : 2 ^ (- e0) = W * 2 ^ j).
    { subst e0 W. replace (- (ez - j)) with (- ez + j) by lia.
      apply Z.pow_add_r; lia. }
    assert (Hpj : 0 < 2 ^ j) by (apply Z.pow_pos_nonneg; lia).
    split.
    + apply round_ge_bound; [exact VL | exact Hk | exact He0 |].
      intros HeL0.
      rewrite (scaled_integer (b - a) eL e0 mL ltac:(lia) HeL0 HmL).
      rewrite HW', HS'. nia.
    + apply round_le_bound; [exact VU | exact Hk | subst e0 ez; lia |].
      rewrite (scaled_integer (b + a) eU e0 mU ltac:(lia) ltac:(subst e0 ez; lia) HmU).
      rewrite HW', HS'. nia.
Qed.

(** [round(z, 2)] stays between two integers that [z] lies between, once
    every two-place decimal between them is known to convert to a double
    between them. *)
Lemma round_2_range (lo hi : Z) (L U z : float) :
  0 < lo <= hi ->
  integer_float lo L -> integer_float hi U ->
  forallb (fun i => decimal_between L U (100 * lo + Z.of_nat i))
    (seq 0 (Z.to_nat (100 * (hi - lo) + 1))) = true ->
  (L <=? z)%float = true -> (z <=? U)%float = true ->
  (L <=? round z 2)%float = true /\ (round z 2 <=? U)%float = true.
Proof.
  intros Hlh (mL & eL & HL & HeL & HmL) (mU & eU & HU & HeU & HmU) Hall Hlo Hhi.
  pose proof (Prim2SF_finite_valid L mL eL HL) as VL.
  pose proof (Prim2SF_finite_valid U mU eU HU) as VU.
  pose proof (Prim2SF_valid z) as Vz.
  pose proof Hlo as Hlo'. pose proof Hhi as Hhi'.
  rewrite leb_spec, HL in Hlo'. rewrite leb_spec, HU in Hhi'.
  unfold round.
  destruct (Prim2SF z) as [s | s | | s m e] eqn:Ez.
  - discriminate Hlo'.
  - destruct s; discriminate.
  - discriminate Hlo'.
  - destruct s; [discriminate Hlo' |].
    apply SFleb_finite in Hlo', Hhi'.
    destruct (valid_binary_finite _ _ _ Vz) as [Hdz Hez].
    pose proof (pos_lt_pow53 m Hdz) as Hm53.
    pose proof (pos_ge_pow52 mU (valid_binary_normal _ _ _ VU ltac:(lia))) as HmU52.
    destruct (valid_binary_finite _ _ _ VL) as [HdL _].
    pose proof (pos_lt_pow53 mL HdL) as HmL53.
    destruct (Z.leb_spec 0 e) as [He0 | He0]; cbn [orb].
    + split; assumption.
    + change (323 <? Z.of_nat 2) with false. cbv iota.
      change (10 ^ Z.of_nat 2) with 100.
      set (D := 2 ^ (- e)).
      assert (HD : 0 < D) by (apply Z.pow_pos_nonneg; lia).
      assert (Hml : lo * D <= Z.pos m).
      { destruct Hlo' as [Lt | [E Le]].
        - pose proof (pos_ge_pow52 m (valid_binary_normal _ _ _ Vz ltac:(lia))) as Hm52.
          pose proof (scaled_integer lo eL eL mL ltac:(lia) ltac:(lia) HmL) as _.
          assert (Hp : 2 ^ (- eL) = D * 2 ^ (e - eL)).
          { subst D. rewrite <- Z.pow_add_r by lia. f_equal. lia. }
          assert (Hq : 2 <= 2 ^ (e - eL)).
          { change 2 with (2 ^ 1) at 1. apply Z.pow_le_mono_r; lia. }
          rewrite Hp in HmL. change (2 ^ 53) with (2 * 2 ^ 52) in HmL53. nia.
        - subst eL. fold D in HmL. lia. }
      assert (Hmu : Z.pos m <= hi * D).
      { destruct Hhi' as [Lt | [E Le]].
        - assert (Hp : D = 2 ^ (- eU) * 2 ^ (eU - e)).
          { subst D. rewrite <- Z.pow_add_r by lia. f_equal. lia. }
          assert (Hq : 2 <= 2 ^ (eU - e)).
          { change 2 with (2 ^ 1) at 1. apply Z.pow_le_mono_r; lia. }
          assert (0 < 2 ^ (- eU)) by (apply Z.pow_pos_nonneg; lia).
          change (2 ^ 53) with (2 * 2 ^ 52) in Hm53. nia.
        - subst eU. fold D in HmU. lia. }
      destruct (div_half_even_faithful (Z.pos m * 100) D HD) as [Hb Hx].
      assert (Hql : 100 * lo <= div_half_even (Z.pos m * 100) D).
      { apply (faithful_lower (Z.pos m * 100) D); [exact HD | lia | nia]. }
      assert (Hqu : div_half_even (Z.pos m * 100) D <= 100 * hi).
      { apply (faithful_upper (Z.pos m * 100) D); try assumption. nia. }
      destruct (div_half_even (Z.pos m * 100) D) as [| q | q]; [lia | | lia].
      apply andb_true_iff.
      apply (forallb_range (decimal_between L U) (100 * lo)
               (100 * (hi - lo) + 1) Hall (Z.pos q)).
      lia.
Qed.

(** [round(s * A + B, 2)] for [s] in [[-1, 1]] lies between [B - A] and
    [B + A], for integers [0 < A < B]. *)
Lemma sine_wave_range (a b : Z) (A B L U s : float) :
  0 < a < b ->
  integer_float a A -> integer_float b B ->
  integer_float (b - a) L -> integer_float (b + a) U ->
  forallb (fun i => decimal_between L U (100 * (b - a) + Z.of_nat i))
    (seq 0 (Z.to_nat (100 * (b + a - (b - a)) + 1))) = true ->
  (-1 <=? s)%float = true -> (s <=? 1)%float = true ->
  (L <=? round (s * A + B) 2)%float = true
  /\ (round (s * A + B) 2 <=? U)%float = true.
Proof.
  intros Hab HA HB HL HU Hall Hlo Hhi.
  destruct HA as (mA & eA & HA & HeA & HmA).
  pose proof (mul_unit_magnitude s A mA eA HA ltac:(lia) Hlo Hhi) as Hy.
  rewrite <- HA in Hy.
  destruct (add_base_range a b (s * A) A B L U Hab
              ltac:(exists mA, eA; auto) HB HL HU Hy) as [Hzl Hzu].
  apply (round_2_range (b - a) (b + a) L U); auto. lia.
Qed.

Lemma integer_float_literals :
  integer_float 50 50 /\ integer_float 60 60 /\ integer_float 10 10
  /\ integer_float 110 110 /\ integer_float 40 40 /\ integer_float 65 65
  /\ integer_float 25 25 /\ integer_float 105 105.
Proof.
  repeat split;
    (do 2 eexists; split; [vm_compute; reflexivity | split; [lia | reflexivity]]).
Qed.

(** Every decimal from 10.00 to 110.00, and from 25.00 to 105.00, in steps
    of 0.01, converts to a double within the same bounds: checked one by
    one. *)
Lemma normal_decimals_checked :
  forallb (fun i => decimal_between 10 110 (100 * (60 - 50) + Z.of_nat i))
    (seq 0 (Z.to_nat (100 * (60 + 50 - (60 - 50)) + 1))) = true.
Proof. vm_compute. reflexivity. Qed.

Lemma abnormal_decimals_checked :
  forallb (fun i => decimal_between 25 105 (100 * (65 - 40) + Z.of_nat i))
    (seq 0 (Z.to_nat (100 * (65 + 40 - (65 - 40)) + 1))) = true.
Proof. vm_compute. reflexivity. Qed.

Lemma normal_wave_range (s : float) :
  (-1 <=? s)%float = true -> (s <=? 1)%float = true ->
  (10 <=? round (s * 50 + 60) 2)%float = true
  /\ (round (s * 50 + 60) 2 <=? 110)%float = true.
Proof.
  destruct integer_float_literals as (H50 & H60 & H10 & H110 & _).
  apply (sine_wave_range 50 60 50 60 10 110 s); try assumption; try lia.
  exact normal_decimals_checked.
Qed.

Lemma abnormal_wave_range (s : float) :
  (-1 <=? s)%float = true -> (s <=? 1)%float = true ->
  (25 <=? round (s * 40 + 65) 2)%float = true
  /\ (round (s * 40 + 65) 2 <=? 105)%float = true.
Proof.
  destruct integer_float_literals as (_ & _ & _ & _ & H40 & H65 & H25 & H105).
  apply (sine_wave_range 40 65 40 65 25 105 s); try assumption; try lia.
  exact abnormal_decimals_checked.
Qed.

(** A float of at most 105 is below 130. *)
Lemma below_spike (v : float) :
  (v <=? 105)%float = true -> (130 <=? v)%float = false.
Proof.
  rewrite !leb_spec.
  change (Prim2SF 105) with (S754_finite false 7388718138654720 (-46)).
  change (Prim2SF 130) with (S754_finite false 4573968371548160 (-45)).
  destruct (Prim2SF v) as [s | s | | s m e]; intros Hv;
    try reflexivity; try (destruct s; reflexivity || discriminate).
  destruct s; [reflexivity |].
  apply SFleb_finite in Hv.
  destruct (SFleb (S754_finite false 4573968371548160 (-45))
              (S754_finite false m e)) eqn:E; [| reflexivity].
  apply SFleb_finite in E. lia.
Qed.

(** X11: when the sine of the phase is within [[-1, 1]], a point of the
    normal mode has a value between 10 and 110: base 60, amplitude 50,
    also after the binary64 roundings and the rounding to two places. *)
Theorem normal_value_range `{Runtime} (c : clock) (w : world) :
  generation_mode w = "normal" ->
  (-1 <=? math_sin (phase w))%float = true ->
  (math_sin (phase w) <=? 1)%float = true ->
  exists x,
    fst (get_data c w)
      = Response (JArr [point (current_time_ms w + 100) x]) 200
    /\ (10 <=? round x 2)%float = true /\ (round x 2 <=? 110)%float = true.
Proof.
  intros Hm Hlo Hhi. exists (math_sin (phase w) * 50 + 60)%float.
  split.
  - unfold get_data, generate_ecg_point, point. rewrite Hm. reflexivity.
  - now apply normal_wave_range.
Qed.

(** X12: in the abnormal mode the value tells a spike from the wave: when
    the sine of the phase is within [[-1, 1]] and the draw of
    [random.uniform] is in [[0, 1)], the value of the point is at least
    130 exactly when the spike branch was taken ([random() < 0.1]);
    otherwise it lies between 25 and 105. *)
Theorem abnormal_spike_threshold `{Runtime} (c : clock) (w : world) :
  generation_mode w = "abnormal" ->
  (-1 <=? math_sin (phase w))%float = true ->
  (math_sin (phase w) <=? 1)%float = true ->
  let u := fst (random_random (random_state w)) in
  let v := fst (random_random (snd (random_random (random_state w)))) in
  (0 <=? v)%float = true -> (v <? 1)%float = true ->
  exists x,
    fst (get_data c w)
      = Response (JArr [point (current_time_ms w + 100) x]) 200
    /\ (130 <=? round x 2)%float = (u <? 0.1)%float
    /\ ((u <? 0.1)%float = false ->
        (25 <=? round x 2)%float = true /\ (round x 2 <=? 105)%float = true).
Proof.
  intros Hm Hlo Hhi u v Hv0 Hv1. subst u v.
  unfold get_data, generate_ecg_point, random_uniform, point. rewrite Hm.
  cbn [String.eqb Ascii.eqb Bool.eqb].
  destruct (random_random (random_state w)) as [u g1]. cbn [fst snd] in *.
  destruct (u <? 0.1)%float.
  - destruct (random_random g1) as [v g2]. cbn [fst snd] in *.
    exists (130 + 50 * v)%float. split; [reflexivity |].
    split; [| discriminate].
    apply (spike_value_range v Hv0 Hv1).
  - exists (math_sin (phase w) * 40 + 65)%float. split; [reflexivity |].
    destruct (abnormal_wave_range _ Hlo Hhi) as [Hl Hu].
    split; [apply below_spike; exact Hu | intros _; split; assumption].
Qed.

(** ** Evaluation on the reference runtime *)

#[local] Existing Instance Reference.runtime.

(** *** The library models on known values *)

Example round_examples :
  round 60 2 = 60%float /\ round 0 2 = 0%float
  /\ round 0.125 2 = 0.12%float /\ round 2.675 2 = 2.67%float
  /\ round 179.995 2 = 180%float /\ round (-0.001) 2 = neg_zero
  /\ round 86.60254037844386 2 = 86.6%float.
Proof. repeat split. Qed.

Example isoformat_examples :
  Reference.isoformat (float_of_int 1700000000000 / 1000)
    = "2023-11-14T22:13:20+00:00"
  /\ Reference.isoformat (float_of_int 1700000000100 / 1000)
    = "2023-11-14T22:13:20.100000+00:00"
  /\ Reference.isoformat (float_of_int 951782400001 / 1000)
    = "2000-02-29T00:00:00.001000+00:00".
Proof. repeat split. Qed.

Example uniform_example :
  fst (random_uniform 130 180 [0.5%float]) = 155%float.
Proof. reflexivity. Qed.

(** *** The theorems at concrete requests *)

Lemma set_mode_valid_witness :
  In "normal" ["stopped"; "normal"; "abnormal"] /\
  get_status (snd (set_mode later "normal" (booted [])))
    = Response (JObj [("mode", JStr "normal")]) 200 /\
  current_time_ms (snd (set_mode later "normal" (booted []))) = 1700000009000 /\
  phase (snd (set_mode later "abnormal" (running "normal" []))) = 7.5%float.
Proof.
  assert (Hn : In "normal" ["stopped"; "normal"; "abnormal"]) by (simpl; auto).
  assert (Ha : In "abnormal" ["stopped"; "normal"; "abnormal"]) by (simpl; auto).
  split; [exact Hn |].
  destruct (set_mode_valid later (booted []) "normal" Hn)
    as (_ & _ & Hstatus & Hreset & _).
  destruct (set_mode_valid later (running "normal" []) "abnormal" Ha)
    as (_ & _ & _ & _ & Hkeep).
  split; [exact Hstatus |]. split.
  - apply Hreset. split; [reflexivity | discriminate].
  - apply Hkeep. intros [Hs _]. discriminate Hs.
Defined.

Lemma set_mode_invalid_witness :
  ~ In "Normal" ["stopped"; "normal"; "abnormal"] /\
  status (fst (set_mode later "Normal" (running "abnormal" []))) = 400 /\
  snd (set_mode later "Normal" (running "abnormal" [])) = running "abnormal" [].
Proof.
  assert (Hm : ~ In "Normal" ["stopped"; "normal"; "abnormal"])
    by (simpl; intros [E | [E | [E | []]]]; discriminate E).
  split; [exact Hm |].
  destruct (set_mode_invalid later (running "abnormal" []) "Normal" Hm)
    as (Hs & _ & Hw).
  split; assumption.
Defined.

Lemma set_mode_invalid_response_witness :
  ~ In "stop" ["stopped"; "normal"; "abnormal"] /\
  fst (set_mode later "stop" (booted []))
    = Response
        (JObj [("status", JStr "error");
               ("message",
                JStr "Invalid mode. Use one of: normal, abnormal, stopped")])
        400.
Proof.
  assert (Hm : ~ In "stop" ["stopped"; "normal"; "abnormal"])
    by (simpl; intros [E | [E | [E | []]]]; discriminate E).
  split; [exact Hm |].
  exact (set_mode_invalid_response later (booted []) "stop" Hm).
Defined.

(** C9, as the specification words it: the message does not list the modes
    as "stopped, normal, abnormal". *)
Lemma invalid_mode_message_order :
  status (fst (set_mode later "stop" (booted []))) = 400 /\
  body (fst (set_mode later "stop" (booted [])))
    <> JObj [("status", JStr "error");
             ("message",
              JStr "Invalid mode. Use one of: stopped, normal, abnormal")].
Proof.
  split; [reflexivity |].
  vm_compute. intros E. discriminate E.
Qed.

Lemma get_data_stopped_witness :
  generation_mode (booted [0.05%float]) = "stopped" /\
  fst (get_data later (booted [0.05%float])) = Response (JArr []) 200.
Proof.
  split; [reflexivity |].
  exact (get_data_stopped later (booted [0.05%float]) eq_refl).
Defined.

Lemma get_data_normal_witness :
  generation_mode (running "normal" []) = "normal" /\
  get_data later (running "normal" [])
    = (Response
         (JArr [JObj [("time", JStr "2023-11-14T22:13:25.100000+00:00");
                      ("value", JNum (round (Reference.sin 7.5 * 50 + 60) 2))]])
         200,
       {| generation_mode := "normal";
          current_time_ms := 1700000005100;
          phase := 8%float;
          random_state := [];
          stdout := ["Generation mode set to: normal"] |}).
Proof.
  split; [reflexivity |].
  rewrite (get_data_normal later (running "normal" []) eq_refl).
  reflexivity.
Defined.

Lemma get_data_abnormal_witness :
  generation_mode (running "abnormal" [0.05; 0.5; 0.7]%float) = "abnormal" /\
  get_data later (running "abnormal" [0.05; 0.5; 0.7]%float)
    = (Response
         (JArr [JObj [("time", JStr "2023-11-14T22:13:25.100000+00:00");
                      ("value", JNum 155%float)]]) 200,
       {| generation_mode := "abnormal";
          current_time_ms := 1700000005100;
          phase := 7.5%float;
          random_state := [0.7%float];
          stdout := ["Generation mode set to: abnormal"] |}) /\
  (130 <=? round (130 + 50 * 0.5) 2)%float = true /\
  phase (snd (get_data later (running "abnormal" [0.7; 0.5]%float)))
    = 7.95%float.
Proof.
  split; [reflexivity |]. split; [| split].
  - destruct (get_data_abnormal later
                (running "abnormal" [0.05; 0.5; 0.7]%float) eq_refl)
      as [(_ & _ & _ & Hspike) | (Hu & _)].
    + rewrite Hspike. reflexivity.
    + discriminate Hu.
  - destruct (get_data_abnormal later
                (running "abnormal" [0.05; 0.5; 0.7]%float) eq_refl)
      as [(_ & _ & Hrange & _) | (Hu & _)].
    + apply Hrange; reflexivity.
    + discriminate Hu.
  - destruct (get_data_abnormal later
                (running "abnormal" [0.7; 0.5]%float) eq_refl)
      as [(Hu & _) | (_ & Hsine)].
    + discriminate Hu.
    + rewrite Hsine. reflexivity.
Defined.

Lemma point_time_and_value_witness :
  generation_mode (running "abnormal" [0.05; 0.5]%float) <> "stopped" /\
  exists x,
    fst (get_data later (running "abnormal" [0.05; 0.5]%float))
      = Response
          (JArr [JObj [("time", JStr "2023-11-14T22:13:25.100000+00:00");
                       ("value", JNum (round x 2))]]) 200
    /\ rounded_to 2 (round x 2).
Proof.
  assert (Hm : generation_mode (running "abnormal" [0.05; 0.5]%float)
               <> "stopped") by discriminate.
  split; [exact Hm |].
  destruct (point_time_and_value later _ Hm) as (x & Hx & Hr).
  exists x. split; [exact Hx | exact Hr].
Defined.

Lemma get_data_stopped_unchanged_witness :
  generation_mode (running "stopped" [0.05%float]) = "stopped" /\
  snd (get_data later (running "stopped" [0.05%float]))
    = running "stopped" [0.05%float] /\
  current_time_ms
    (snd (generate_ecg_point later (running "stopped" [0.05%float])))
    = 1700000005100.
Proof.
  split; [reflexivity |].
  destruct (get_data_stopped_unchanged later
              (running "stopped" [0.05%float]) eq_refl) as (Hw & Hg & _).
  split; [exact Hw |]. rewrite Hg. reflexivity.
Defined.

Lemma restart_resets_phase_and_clock_witness :
  Reference.sin 0 = 0%float /\
  phase (running "abnormal" []) = 7.5%float /\
  fst (get_data
         (Clock 1700000009400 "2023-11-14T22:13:29.400000+00:00")
         (snd (set_mode later "normal"
            (snd (set_mode later "stopped"
               (snd (set_mode later "normal" (running "abnormal" []))))))))
    = Response
        (JArr [JObj [("time", JStr "2023-11-14T22:13:29.100000+00:00");
                     ("value", JNum 60%float)]]) 200.
Proof.
  split; [reflexivity |]. split; [reflexivity |].
  destruct (restart_resets_phase_and_clock later later later
              (Clock 1700000009400 "2023-11-14T22:13:29.400000+00:00")
              (running "abnormal" []) eq_refl) as (_ & _ & _ & Hp).
  rewrite Hp. reflexivity.
Defined.

Lemma timestamps_nondecreasing_between_restarts_witness :
  restarts_not_behind steady_poll_then_restart (booted []) = true /\
  timestamps steady_poll_then_restart (booted [])
    = [1700000000000; 1700000001000; 1700000001100; 1700000001200;
       1700000001200; 1700000001400] /\
  nondecreasing (timestamps steady_poll_then_restart (booted [])) = true /\
  points_advance_100 steady_poll_then_restart (booted []) = true.
Proof.
  split; [reflexivity |]. split; [reflexivity |].
  destruct (timestamps_nondecreasing_between_restarts
              steady_poll_then_restart (booted [])) as [Hp Hn].
  split; [exact (Hn eq_refl) | exact Hp].
Defined.

(** C6, as the specification words it: the wall clock only moves forward,
    yet the restart puts the simulated clock back from [...1200] to
    [...1040], because two points were polled within 20 ms. *)
Lemma timestamp_decreases_on_restart :
  nondecreasing (wall_clock boot fast_poll_then_restart) = true /\
  timestamps fast_poll_then_restart (booted [])
    = [1700000000000; 1700000001000; 1700000001100; 1700000001200;
       1700000001200; 1700000001040] /\
  nondecreasing (timestamps fast_poll_then_restart (booted [])) = false.
Proof. repeat split. Qed.

(** *** Sessions and the client at concrete requests *)

Lemma polls_advance_clock_witness :
  generation_mode (running "abnormal" [0.7; 0.05; 0.5]%float) <> "stopped" /\
  timestamps (polls [later; later; boot])
    (running "abnormal" [0.7; 0.05; 0.5]%float)
    = [1700000005000; 1700000005100; 1700000005200; 1700000005300] /\
  generation_mode
    (final (polls [later; later; boot])
       (running "abnormal" [0.7; 0.05; 0.5]%float)) = "abnormal".
Proof.
  assert (Hm : generation_mode (running "abnormal" [0.7; 0.05; 0.5]%float)
               <> "stopped") by discriminate.
  split; [exact Hm |].
  destruct (polls_advance_clock [later; later; boot] _ Hm) as (Ht & _ & Hf).
  split; [rewrite Ht; reflexivity | exact Hf].
Defined.

Lemma restart_forgets_history_witness :
  generation_mode (booted [0.7%float]) = "stopped" /\
  generation_mode (running "stopped" [0.7%float]) = "stopped" /\
  random_state (booted [0.7%float]) = random_state (running "stopped" [0.7%float]) /\
  replies (polls [boot; later]) (snd (set_mode later "abnormal" (booted [0.7%float])))
  = replies (polls [boot; later])
      (snd (set_mode later "abnormal" (running "stopped" [0.7%float]))).
Proof.
  split; [reflexivity |]. split; [reflexivity |]. split; [reflexivity |].
  apply (restart_forgets_history later "abnormal");
    [reflexivity | reflexivity | reflexivity | right; reflexivity].
Defined.

Lemma phase_never_decreases_witness :
  (0 <=? phase (running "normal" []))%float = true /\
  restarts GET_data (running "normal" []) = false /\
  (7.5 <=? phase (snd (serve later GET_data (running "normal" []))))%float
  = true.
Proof.
  split; [reflexivity |]. split; [reflexivity |].
  exact (phase_never_decreases later GET_data (running "normal" [])
           eq_refl eq_refl).
Defined.


Lemma set_backend_mode_exit_witness :
  In "normal" ["normal"; "abnormal"; "stopped"] /\
  posted (set_backend_mode type_name unreachable "normal")
  = ["https://smart-t-shirt.onrender.com/set_mode/normal"] /\
  exit_code (set_backend_mode type_name unreachable "normal") = Some 1 /\
  exit_code
    (set_backend_mode type_name
       (answering "BAD REQUEST" (fst (set_mode later "Normal" (booted []))))
       "normal") = Some 1.
Proof.
  assert (Hm : In "normal" ["normal"; "abnormal"; "stopped"]) by (simpl; auto).
  split; [exact Hm |].
  destruct (set_backend_mode_exit type_name unreachable "normal" Hm)
    as (Hp & Hc & Hiff).
  destruct (set_backend_mode_exit type_name
              (answering "BAD REQUEST" (fst (set_mode later "Normal" (booted []))))
              "normal" Hm) as (_ & Hc' & Hiff').
  split; [exact Hp |]. split.
  - destruct Hc as [Hn | Hs]; [| exact Hs].
    apply Hiff in Hn. destruct Hn as (r & Hr & _). discriminate Hr.
  - destruct Hc' as [Hn | Hs]; [| exact Hs].
    apply Hiff' in Hn. destruct Hn as (r & Hr & Hs & _).
    injection Hr as <-. simpl in Hs. lia.
Defined.

Lemma client_sets_backend_mode_witness :
  In "abnormal" ["normal"; "abnormal"; "stopped"] /\
  set_backend_mode type_name
    (answering "OK" (fst (set_mode later "abnormal" (booted []))))
    "abnormal"
  = {| printed :=
         ["Sending request to set mode to 'abnormal' at https://smart-t-shirt.onrender.com/set_mode/abnormal...";
          "Success: Backend responded with status 'success', new mode is 'abnormal'"];
       posted := ["https://smart-t-shirt.onrender.com/set_mode/abnormal"];
       exit_code := None |} /\
  generation_mode (snd (set_mode later "abnormal" (booted []))) = "abnormal".
Proof.
  assert (Hm : In "abnormal" ["normal"; "abnormal"; "stopped"])
    by (simpl; auto).
  split; [exact Hm |].
  destruct (client_sets_backend_mode type_name
              (answering "OK" (fst (set_mode later "abnormal" (booted []))))
              "OK" later (booted []) "abnormal" Hm eq_refl)
    as (_ & Hcli & Hsrv).
  split; [exact Hcli | exact Hsrv].
Defined.

Lemma normal_value_range_witness :
  generation_mode (snd (set_mode later "normal" (booted []))) = "normal" /\
  (-1 <=? Reference.sin 0)%float = true /\
  (Reference.sin 0 <=? 1)%float = true /\
  exists x,
    fst (get_data later (snd (set_mode later "normal" (booted []))))
      = Response (JArr [point 1700000009100 x]) 200
    /\ (10 <=? round x 2)%float = true /\ (round x 2 <=? 110)%float = true.
Proof.
  split; [reflexivity |]. split; [reflexivity |]. split; [reflexivity |].
  exact (normal_value_range later (snd (set_mode later "normal" (booted [])))
           eq_refl eq_refl eq_refl).
Defined.

Lemma abnormal_spike_threshold_witness :
  generation_mode
    (snd (set_mode later "abnormal" (booted [0.05; 0.5]%float))) = "abnormal" /\
  (0 <=? 0.5)%float = true /\ (0.5 <? 1)%float = true /\
  exists x,
    fst (get_data later
           (snd (set_mode later "abnormal" (booted [0.05; 0.5]%float))))
      = Response (JArr [point 1700000009100 x]) 200
    /\ (130 <=? round x 2)%float = true.
Proof.
  split; [reflexivity |]. split; [reflexivity |]. split; [reflexivity |].
  destruct (abnormal_spike_threshold later
              (snd (set_mode later "abnormal" (booted [0.05; 0.5]%float)))
              eq_refl eq_refl eq_refl eq_refl eq_refl) as (x & Hx & Hspike & _).
  exists x. split; [exact Hx | exact Hspike].
Defined.
